(** * A shallow embedding of [http_server.py]

    The server is a single Python module.  Its request-handling core is
    [get_mime_type], [format_http_response], [build_response] and
    [handle_request]; this file embeds those four functions together with
    the library routines they call ([str] methods, [os.path] on a POSIX
    host, the socket calls), then [start_server] and the [__main__]
    block, and proves properties of them.

    Conventions.
    - A Python [str] is a [string]: one [ascii] per code point, which
      covers U+0000..U+00FF.  That is exactly the range that
      [bytes.decode('latin-1')] produces and on which
      [str.encode('latin-1')] is defined.
    - A Python [bytes] is a [list byte].
    - A call that may raise returns a [result]. *)

From Stdlib Require Import List Strings.String Strings.Ascii Strings.Byte Bool Arith NArith ZArith Lia.
From Stdlib Require Import Decimal DecimalString DecimalNat.
Import ListNotations.

Open Scope list_scope.
Open Scope string_scope.

(** ** Values, exceptions *)

Definition str := string.
Definition bytes := list byte.

Inductive exception : Type :=
| FileNotFoundError
| PermissionError
| IsADirectoryError
| NotADirectoryError
| ConnectionResetError
| BrokenPipeError
| OSError            (* any other operating-system error *)
| ValueError
| UnicodeError.

(** [issubclass(e, OSError)]; [socket.error] is an alias of [OSError]. *)
Definition is_OSError (e : exception) : bool :=
  match e with
  | ValueError | UnicodeError => false
  | _ => true
  end.

Definition is_FileNotFoundError (e : exception) : bool :=
  match e with
  | FileNotFoundError => true
  | _ => false
  end.

Inductive result (A : Type) : Type :=
| Return (a : A)
| Raise (e : exception).

Arguments Return {A} a.
Arguments Raise {A} e.

(** ** [str] and [bytes] primitives *)

Definition CR : ascii := "013"%char.
Definition LF : ascii := "010"%char.
Definition CRLF : str := String CR (String LF "").

Definition encode_latin1 (s : str) : bytes := list_byte_of_string s.
Definition decode_latin1 (b : bytes) : str := string_of_list_byte b.

(** [s.startswith(p)] *)
Definition startswith (s p : str) : bool := String.prefix p s.

(** [s.endswith(p)] *)
Fixpoint endswith (s p : str) : bool :=
  (s =? p) ||
  match s with
  | "" => false
  | String _ s' => endswith s' p
  end.

(** [sub in s] *)
Fixpoint contains (sub s : str) : bool :=
  String.prefix sub s ||
  match s with
  | "" => false
  | String _ s' => contains sub s'
  end.

(** [s.lstrip(c)] for a one-character strip set. *)
Fixpoint lstrip (s : str) (c : ascii) : str :=
  match s with
  | "" => ""
  | String a s' => if (a =? c)%char then lstrip s' c else s
  end.

(** Put a character in front of the first field of a split. *)
Definition cons_field (a : ascii) (fields : list str) : list str :=
  match fields with
  | [] => [String a ""]
  | f :: fs => String a f :: fs
  end.

(** [s.split(sep)] for a non-empty separator: scan left to right, cut at
    every occurrence of [sep] that does not overlap the previous one.
    [skip] counts the characters of a matched separator still to drop. *)
Fixpoint split_from (sep : str) (skip : nat) (s : str) : list str :=
  match s with
  | "" => [""]
  | String a s' =>
      match skip with
      | S k => split_from sep k s'
      | O =>
          if String.prefix sep s
          then "" :: split_from sep (String.length sep - 1) s'
          else cons_field a (split_from sep 0 s')
      end
  end.

Definition split (s sep : str) : list str := split_from sep 0 s.

(** [c.isspace()] on U+0000..U+00FF: TAB..CR, FS..US, SPACE, NEL, NBSP. *)
Definition isspace (c : ascii) : bool :=
  let n := nat_of_ascii c in
  ((9 <=? n)%nat && (n <=? 13)%nat) || ((28 <=? n)%nat && (n <=? 32)%nat) ||
  (n =? 133)%nat || (n =? 160)%nat.

(** [s.split()] with no argument: the maximal runs of non-space
    characters. *)
Fixpoint split_ws (s : str) : list str :=
  match s with
  | "" => []
  | String a s' =>
      if isspace a then split_ws s'
      else match s' with
           | "" => [String a ""]
           | String b _ =>
               if isspace b then String a "" :: split_ws s'
               else cons_field a (split_ws s')
           end
  end.

(** [c.lower()] on U+0000..U+00FF: A..Z and the accented capitals
    U+00C0..U+00DE other than the multiplication sign. *)
Definition lower_char (c : ascii) : ascii :=
  let n := nat_of_ascii c in
  if ((65 <=? n)%nat && (n <=? 90)%nat) ||
     ((192 <=? n)%nat && (n <=? 222)%nat && negb (n =? 215)%nat)
  then ascii_of_nat (n + 32)
  else c.

Fixpoint lower (s : str) : str :=
  match s with
  | "" => ""
  | String a s' => String (lower_char a) (lower s')
  end.

(** [l[-1]] of a list that is never empty here. *)
Definition last_field (l : list str) : str := List.last l "".

(** [str(n)] for an [int]. *)
Definition str_of_int (n : Z) : str := NilZero.string_of_int (Z.to_int n).

(** [str(len(b))]. *)
Definition str_of_len (n : nat) : str := NilZero.string_of_uint (Nat.to_uint n).

(** [sub in b] on byte strings. *)
Fixpoint bytes_prefix (p b : bytes) : bool :=
  match p, b with
  | [], _ => true
  | _ :: _, [] => false
  | x :: p', y :: b' => Byte.eqb x y && bytes_prefix p' b'
  end.

Fixpoint bytes_contains (sub b : bytes) : bool :=
  bytes_prefix sub b ||
  match b with
  | [] => false
  | _ :: b' => bytes_contains sub b'
  end.

(** ** Configuration and utilities *)

Definition SERVER_NAME : str := "BobsDiscountServer/2.1".
Definition DEFAULT_MIME_TYPE : str := "application/octet-stream".

Definition MIME_TYPES : list (str * str) :=
  [ ("html", "text/html");
    ("htm", "text/html");
    ("css", "text/css");
    ("js", "application/javascript");
    ("json", "application/json");
    ("png", "image/png");
    ("jpg", "image/jpeg");
    ("jpeg", "image/jpeg");
    ("gif", "image/gif");
    ("txt", "text/plain") ].

(** [d.get(key, default)] *)
Fixpoint dict_get (d : list (str * str)) (key default : str) : str :=
  match d with
  | [] => default
  | (k, v) :: d' => if (k =? key) then v else dict_get d' key default
  end.

Definition get_mime_type (file_path : str) : str :=
  if contains "." file_path then
    let ext := lower (last_field (split file_path ".")) in
    dict_get MIME_TYPES ext DEFAULT_MIME_TYPE
  else DEFAULT_MIME_TYPE.

(** ** [os.path] on a POSIX host ([posixpath]) *)

Module posixpath.

(** [sep * n] *)
Fixpoint seps (n : nat) : str :=
  match n with
  | O => ""
  | S k => String "/" (seps k)
  end.

(** [os.path.join(a, b)] with one extra component. *)
Definition join (a b : str) : str :=
  if startswith b "/" then b
  else if (a =? "") || endswith a "/" then a ++ b
  else a ++ "/" ++ b.

Definition is_nil (l : list str) : bool :=
  match l with
  | [] => true
  | _ => false
  end.

(** One turn of the loop over [comps] in [normpath]. *)
Definition normpath_step (initial_slashes : nat) (new_comps : list str)
    (comp : str) : list str :=
  if (comp =? "") || (comp =? ".") then new_comps
  else if negb (comp =? "..")
          || ((initial_slashes =? 0)%nat && is_nil new_comps)
          || (negb (is_nil new_comps) && (List.last new_comps "" =? ".."))
  then (new_comps ++ [comp])%list
  else if negb (is_nil new_comps) then List.removelast new_comps
  else new_comps.

(** [os.path.normpath(path)] *)
Definition normpath (path : str) : str :=
  if path =? "" then "."
  else
    let initial_slashes :=
      if startswith path "/" then
        if startswith path "//" && negb (startswith path "///") then 2 else 1
      else 0 in
    let comps := split path "/" in
    let new_comps := List.fold_left (normpath_step initial_slashes) comps [] in
    let path := String.concat "/" new_comps in
    let path :=
      if (0 <? initial_slashes)%nat then seps initial_slashes ++ path
      else path in
    if path =? "" then "." else path.

(** [os.path.abspath(path)], with [cwd] the value of [os.getcwd()]. *)
Definition abspath (cwd path : str) : str :=
  normpath (if startswith path "/" then path else join cwd path).

End posixpath.

(** ** The socket of one connection

    [recv_script] lists what the successive [recv(1024)] calls return (a
    chunk, or an exception); once it is exhausted the peer has closed and
    [recv] returns [b''].  [sendall_fault = Some (k, e)] makes [sendall]
    raise [e] after [k] bytes went out.  [sent] accumulates the bytes
    written and [close_calls] counts the calls of [close()]. *)

Record socket : Type := mkSocket {
  recv_script : list (result bytes);
  sendall_fault : option (nat * exception);
  sent : bytes;
  close_calls : nat
}.

Definition set_recv_script (s : socket) (script : list (result bytes)) : socket :=
  mkSocket script (sendall_fault s) (sent s) (close_calls s).

Definition close (s : socket) : socket :=
  mkSocket (recv_script s) (sendall_fault s) (sent s) (S (close_calls s)).

Definition sendall (s : socket) (data : bytes) : result unit * socket :=
  match sendall_fault s with
  | None =>
      (Return tt,
       mkSocket (recv_script s) None (sent s ++ data)%list (close_calls s))
  | Some (k, e) =>
      (Raise e,
       mkSocket (recv_script s) (sendall_fault s)
                (sent s ++ List.firstn k data)%list (close_calls s))
  end.

Definition is_empty (data : bytes) : bool :=
  match data with
  | [] => true
  | _ => false
  end.

(** The bytes literal [b'...'] of an ASCII text. *)
Definition blit (text : string) : bytes := list_byte_of_string text.

(** The [while True] loop of [handle_request]: the accumulated
    [request_data] (or the exception of a [recv]) and the unread rest of
    the script. *)
Fixpoint recv_loop (script : list (result bytes)) (request_data : bytes)
  : result bytes * list (result bytes) :=
  match script with
  | [] => (Return request_data, [])
  | Raise e :: rest => (Raise e, rest)
  | Return chunk :: rest =>
      if is_empty chunk then (Return request_data, rest)
      else
        let request_data := (request_data ++ chunk)%list in
        if bytes_contains (blit (CRLF ++ CRLF)) request_data
        then (Return request_data, rest)
        else recv_loop rest request_data
  end.

(** The [try] block that decodes and splits the request line; the
    unpacking of [request_line.split()] into three names raises
    [ValueError] on any other number of tokens. *)
Definition parse_request_line (request_data : bytes) : result (str * str * str) :=
  let request_lines := split (decode_latin1 request_data) CRLF in
  let request_line := List.hd "" request_lines in
  match split_ws request_line with
  | [method; uri_path; http_version] => Return (method, uri_path, http_version)
  | _ => Raise ValueError
  end.

Section Server.

(** The environment of the process.
    - [unquote]: [urllib.parse.unquote];
    - [getcwd]: the working directory, read by [os.path.abspath];
    - [open_read]: [open(path, 'rb')] followed by [f.read()];
    - [date_header]: what [formatdate(usegmt=True)] returns when the
      response is assembled. *)
Variable unquote : str -> result str.
Variable getcwd : str.
Variable open_read : str -> result bytes.
Variable date_header : str.

(** *** HTTP response generation *)

Definition format_http_response (status_code : Z) (status_text content_type : str)
    (content_body : bytes) : bytes :=
  let content_length := List.length content_body in
  let response_line :=
    "HTTP/1.1 " ++ str_of_int status_code ++ " " ++ status_text ++ CRLF in
  let headers :=
    [ "Date: " ++ date_header;
      "Server: " ++ SERVER_NAME;
      "Content-Type: " ++ content_type;
      "Content-Length: " ++ str_of_len content_length;
      "Connection: close" ] in
  let header_string :=
    response_line ++ String.concat CRLF headers ++ CRLF ++ CRLF in
  (encode_latin1 header_string ++ content_body)%list.

(** *** Path resolution and file serving *)

Definition build_response (uri_path doc_root : str) : result bytes :=
  (* 1. URI decoding *)
  match unquote uri_path with
  | Raise _ =>
      let error_html := blit "<h1>400 Bad Request</h1>" in
      Return (format_http_response 400 "Bad Request" "text/html" error_html)
  | Return uri_path =>
      (* 2. Index handling *)
      let uri_path :=
        if endswith uri_path "/" then uri_path ++ "index.html" else uri_path in
      let relative_path := lstrip uri_path "/" in
      let full_path := posixpath.join doc_root relative_path in
      (* 3. Directory traversal prevention *)
      let abs_doc_root := posixpath.abspath getcwd doc_root in
      let abs_full_path := posixpath.abspath getcwd full_path in
      if negb (startswith abs_full_path abs_doc_root) then
        let error_html := blit "<h1>404 Not Found (Security Violation)</h1>" in
        Return (format_http_response 404 "Not Found" "text/html" error_html)
      else
        (* 4. Attempt to read the file *)
        match open_read full_path with
        | Return content_body =>
            let mime_type := get_mime_type full_path in
            Return (format_http_response 200 "OK" mime_type content_body)
        | Raise e =>
            if is_FileNotFoundError e then
              let error_html := blit "<h1>404 Not Found</h1>" in
              Return (format_http_response 404 "Not Found" "text/html" error_html)
            else Raise e
        end
  end.

(** *** The client handler

    The result is what the thread's target does ([Return tt], or the
    exception that escapes it) and the socket as it leaves it.  The
    [print] calls are not modelled. *)

Definition handle_request (client_socket : socket) (doc_root : str)
  : result unit * socket :=
  match recv_loop (recv_script client_socket) [] with
  | (Raise e, rest) =>
      let client_socket := set_recv_script client_socket rest in
      if is_OSError e then (Return tt, close client_socket)
      else (Raise e, client_socket)
  | (Return request_data, rest) =>
      let client_socket := set_recv_script client_socket rest in
      if is_empty request_data then (Return tt, close client_socket)
      else
        match parse_request_line request_data with
        | Raise _ => (Return tt, close client_socket)
        | Return (method, uri_path, http_version) =>
            if negb (method =? "GET") then (Return tt, close client_socket)
            else
              match build_response uri_path doc_root with
              | Raise e => (Raise e, client_socket)
              | Return response_bytes =>
                  match sendall client_socket response_bytes with
                  | (Return _, client_socket) => (Return tt, close client_socket)
                  | (Raise e, client_socket) =>
                      if is_OSError e then (Return tt, close client_socket)
                      else (Raise e, client_socket)
                  end
              end
        end
  end.

End Server.

(** ** A concrete environment for evaluating the model *)

(** A file system without symbolic links, given by the table of its
    readable files and the list of its directories, both under their
    normalized absolute names; every other path is missing. *)
Definition fs_open (cwd : str) (files : list (str * bytes)) (dirs : list str)
    (path : str) : result bytes :=
  let name := posixpath.abspath cwd path in
  match List.find (fun f => fst f =? name) files with
  | Some f => Return (snd f)
  | None =>
      if List.existsb (String.eqb name) dirs then Raise IsADirectoryError
      else Raise FileNotFoundError
  end.

(** A decoder that leaves its argument as it is: what [unquote] does on a
    text without [%]. *)
Definition unquote_plain (s : str) : result str := Return s.

(** The value of a hexadecimal digit, in either case: the keys of
    [_hextobyte] in [urllib.parse]. *)
Definition hex_value (c : ascii) : option nat :=
  let n := nat_of_ascii c in
  if ((48 <=? n)%nat && (n <=? 57)%nat) then Some (n - 48)
  else if ((65 <=? n)%nat && (n <=? 70)%nat) then Some (n - 55)
  else if ((97 <=? n)%nat && (n <=? 102)%nat) then Some (n - 87)
  else None.

(** The text that [urllib.parse.unquote] returns: a [%] followed by two
    hexadecimal digits stands for the character of that value, and any
    other [%] stays in the text as it is.  This is exact when every
    well-formed escape is below [%80] ([low_escapes]); from [%80] on
    Python decodes the bytes as UTF-8, to text that may lie outside
    U+00FF, which this model does not cover. *)
Fixpoint unquoted_text (s : str) : str :=
  match s with
  | "" => ""
  | String a s' =>
      if (a =? "%")%char then
        match s' with
        | String h (String l rest) =>
            match hex_value h, hex_value l with
            | Some x, Some y => String (ascii_of_nat (16 * x + y)) (unquoted_text rest)
            | _, _ => String a (unquoted_text s')
            end
        | _ => String a (unquoted_text s')
        end
      else String a (unquoted_text s')
  end.

(** Every well-formed escape of [s] is below [%80]. *)
Fixpoint low_escapes (s : str) : bool :=
  match s with
  | "" => true
  | String a s' =>
      if (a =? "%")%char then
        match s' with
        | String h (String l rest) =>
            match hex_value h, hex_value l with
            | Some x, Some y => (16 * x + y <? 128)%nat && low_escapes rest
            | _, _ => low_escapes s'
            end
        | _ => low_escapes s'
        end
      else low_escapes s'
  end.

(** [urllib.parse.unquote] on a [str]: it returns on every text, well
    formed or not, and never raises. *)
Definition urllib_unquote (s : str) : result str := Return (unquoted_text s).

(** A small site: the document root [/srv/www] next to a directory
    [/srv/www-secret] that is not part of it. *)
Definition www_cwd : str := "/".

Definition www_files : list (str * bytes) :=
  [ ("/srv/www/index.html", blit "<p>home</p>");
    ("/srv/www/sub/index.html", blit "<p>sub</p>");
    ("/srv/www/style.css", blit "p{}");
    ("/srv/www-secret/key.txt", blit "secret") ].

Definition www_dirs : list str :=
  [ "/"; "/srv"; "/srv/www"; "/srv/www/sub"; "/srv/www-secret" ].

Definition www_open : str -> result bytes := fs_open www_cwd www_files www_dirs.

Definition www_date : str := "Tue, 03 Nov 2026 12:00:00 GMT".

(** A freshly accepted connection on which sending succeeds. *)
Definition connection (script : list (result bytes)) : socket :=
  mkSocket script None [] 0.

(** ** Names for the intermediate values of [build_response] *)

(** [full_path], from the decoded URI path. *)
Definition resolved_full_path (decoded doc_root : str) : str :=
  let uri_path :=
    if endswith decoded "/" then decoded ++ "index.html" else decoded in
  posixpath.join doc_root (lstrip uri_path "/").

(** The test of step 3: [abs_full_path.startswith(abs_doc_root)]. *)
Definition passes_prefix_check (cwd full_path doc_root : str) : bool :=
  startswith (posixpath.abspath cwd full_path) (posixpath.abspath cwd doc_root).

(** Steps 3 and 4, from [full_path] on. *)
Definition serve_path (cwd : str) (open_read : str -> result bytes) (date : str)
    (full_path doc_root : str) : result bytes :=
  if negb (passes_prefix_check cwd full_path doc_root) then
    Return (format_http_response date 404 "Not Found" "text/html"
              (blit "<h1>404 Not Found (Security Violation)</h1>"))
  else
    match open_read full_path with
    | Return content_body =>
        Return (format_http_response date 200 "OK" (get_mime_type full_path)
                  content_body)
    | Raise e =>
        if is_FileNotFoundError e then
          Return (format_http_response date 404 "Not Found" "text/html"
                    (blit "<h1>404 Not Found</h1>"))
        else Raise e
    end.

(** The first line of the received buffer: [request_lines[0]]. *)
Definition first_line (request_data : bytes) : str :=
  List.hd "" (split (decode_latin1 request_data) CRLF).

(** ** The specification's reading of containment *)

(** [path] is the directory [root] or lies below it: [root] followed by a
    separator is a prefix of [path]. *)
Definition in_subtree (root path : str) : bool :=
  (path =? root) || startswith path (if endswith root "/" then root else root ++ "/").

(** ** The specification's reading of the MIME resolver and of the framer *)

(** The text after the last [c] of [s]; all of [s] when it has no [c]. *)
Fixpoint after_last (c : ascii) (s : str) : str :=
  match s with
  | "" => ""
  | String a s' =>
      if contains (String c "") s' then after_last c s'
      else if (a =? c)%char then s'
      else s
  end.

Definition final_segment (path : str) : str := after_last "/" path.

(** The extension table as the specification lists it. *)
Definition spec_content_type (ext : str) : str :=
  if (ext =? "html") || (ext =? "htm") then "text/html"
  else if ext =? "css" then "text/css"
  else if ext =? "js" then "application/javascript"
  else if ext =? "json" then "application/json"
  else if ext =? "png" then "image/png"
  else if (ext =? "jpg") || (ext =? "jpeg") then "image/jpeg"
  else if ext =? "gif" then "image/gif"
  else if ext =? "txt" then "text/plain"
  else "application/octet-stream".

Definition spec_mime (path : str) : str :=
  let segment := final_segment path in
  if contains "." segment
  then spec_content_type (lower (after_last "." segment))
  else "application/octet-stream".

(** The header block as the specification lays it out: the status line and
    the five headers in order, each closed by CRLF, then a blank line. *)
Definition spec_header (date : str) (status_code : Z) (status_text content_type : str)
    (body_length : nat) : str :=
  ("HTTP/1.1 " ++ str_of_int status_code ++ " " ++ status_text) ++ CRLF ++
  ("Date: " ++ date) ++ CRLF ++
  ("Server: " ++ SERVER_NAME) ++ CRLF ++
  ("Content-Type: " ++ content_type) ++ CRLF ++
  ("Content-Length: " ++ str_of_len body_length) ++ CRLF ++
  "Connection: close" ++ CRLF ++
  CRLF.

(** The number a decimal header value denotes. *)
Definition decimal_value (s : str) : option nat :=
  option_map Nat.of_uint (NilZero.uint_of_string s).

(** ** Server initialization and the accept loop

    The threads that [start_server] starts are recorded, not run: each
    one is a call of [handle_request] on its own socket.  The [print]
    calls are not modelled. *)

(** One turn of the [try] body of the accept loop. *)
Inductive loop_event : Type :=
| Accepted (client_socket : socket)   (* [accept] returned, the thread was started *)
| Interrupted                         (* [KeyboardInterrupt] was raised *)
| Failed (e : exception).             (* another exception was raised *)

(** What the process finds around it.
    - [isdir]: [os.path.isdir];
    - [socket_setup]: [socket.socket(...)] followed by [setsockopt];
    - [bind_listen]: [bind(('', port))] followed by [listen(5)];
    - [loop_events]: what the successive turns of the accept loop meet;
      once they are exhausted [accept] blocks for good. *)
Record host : Type := mkHost {
  isdir : str -> bool;
  socket_setup : result unit;
  bind_listen : Z -> result unit;
  loop_events : list loop_event
}.

(** How a run of the server ends. *)
Inductive ending : Type :=
| SystemExit (code : Z)     (* [sys.exit(code)] *)
| Uncaught (e : exception)  (* an exception nobody handles *)
| Returned                  (* the [break] after Ctrl+C *)
| Waiting.                  (* blocked in [accept] *)

(** A run: how it ends, the arguments [(client_socket, doc_root)] of the
    handler threads started, in order, and the number of calls of
    [server_socket.close()]. *)
Record run : Type := mkRun {
  run_ending : ending;
  started : list (socket * str);
  listener_close_calls : nat
}.

(** The [while True] loop of [start_server]. *)
Fixpoint accept_loop (doc_root : str) (events : list loop_event)
    (threads : list (socket * str)) : run :=
  match events with
  | [] => mkRun Waiting threads 0
  | Accepted client_socket :: events' =>
      accept_loop doc_root events' (threads ++ [(client_socket, doc_root)])%list
  | Interrupted :: _ => mkRun Returned threads 1
  | Failed _ :: events' => accept_loop doc_root events' threads
  end.

Definition start_server (h : host) (port : Z) (doc_root : str) : run :=
  if negb (isdir h doc_root) then mkRun (SystemExit 1) [] 0
  else
    match socket_setup h with
    | Raise e => mkRun (Uncaught e) [] 0
    | Return _ =>
        match bind_listen h port with
        | Raise e =>
            if is_OSError e then mkRun (SystemExit 1) [] 0
            else mkRun (Uncaught e) [] 0
        | Return _ => accept_loop doc_root (loop_events h) []
        end
    end.

(** [issubclass(e, ValueError)]; [UnicodeError] derives from it. *)
Definition is_ValueError (e : exception) : bool :=
  match e with
  | ValueError | UnicodeError => true
  | _ => false
  end.

(** The [__main__] block, with [int] the conversion of the port
    argument and [argv] the value of [sys.argv]. *)
Definition main (int : str -> result Z) (h : host) (argv : list str) : run :=
  if negb (List.length argv =? 3)%nat then mkRun (SystemExit 1) [] 0
  else
    match int (List.nth 1 argv "") with
    | Raise e =>
        if is_ValueError e then mkRun (SystemExit 1) [] 0
        else mkRun (Uncaught e) [] 0
    | Return port => start_server h port (List.nth 2 argv "")
    end.

(** ** Vocabulary for the properties below *)

(** Every character of [s] satisfies [p]. *)
Fixpoint all_chars (p : ascii -> bool) (s : str) : bool :=
  match s with
  | "" => true
  | String a s' => p a && all_chars p s'
  end.

Definition not_CR (a : ascii) : bool := negb (a =? CR)%char.

Definition not_space (a : ascii) : bool := negb (isspace a).

(** A token of the request line: not empty, no white space in it. *)
Definition token_ok (t : str) : Prop := t <> "" /\ all_chars not_space t = true.

(** A chunk that [recv] returns while the peer is still sending. *)
Definition nonempty (chunk : bytes) : Prop := chunk <> [].

(** No component of the path is [..]. *)
Definition no_dotdot (path : str) : bool :=
  List.forallb (fun comp => negb (comp =? "..")) (split path "/").

(** The relative path that [build_response] joins to the document root. *)
Definition relative_path_of (decoded : str) : str :=
  lstrip (if endswith decoded "/" then decoded ++ "index.html" else decoded) "/".

(** The components that the loop of [normpath] keeps when none is [..]. *)
Definition kept (comps : list str) : list str :=
  List.filter (fun comp => negb ((comp =? "") || (comp =? "."))) comps.

(** The test of [normpath] for exactly two leading slashes. *)
Definition two_slashes (path : str) : bool :=
  startswith path "//" && negb (startswith path "///").

(** The turns of the accept loop that come before the first Ctrl+C. *)
Fixpoint before_interrupt (events : list loop_event) : list loop_event :=
  match events with
  | [] => []
  | Interrupted :: _ => []
  | ev :: events' => ev :: before_interrupt events'
  end.

(** The connections accepted in a list of turns. *)
Fixpoint accepted_clients (events : list loop_event) : list socket :=
  match events with
  | [] => []
  | Accepted client_socket :: events' => client_socket :: accepted_clients events'
  | _ :: events' => accepted_clients events'
  end.

Definition interrupted (events : list loop_event) : bool :=
  List.existsb (fun ev => match ev with Interrupted => true | _ => false end) events.

(** * Properties *)

(** ** Strings *)

Lemma append_assoc (s1 s2 s3 : str) : (s1 ++ s2) ++ s3 = s1 ++ (s2 ++ s3).
Proof. induction s1 as [|a s1 IH]; simpl; [reflexivity | now rewrite IH]. Qed.

Lemma append_nil_r (s : str) : s ++ "" = s.
Proof. induction s as [|a s IH]; simpl; [reflexivity | now rewrite IH]. Qed.

Lemma encode_latin1_app (s1 s2 : str) :
  encode_latin1 (s1 ++ s2) = (encode_latin1 s1 ++ encode_latin1 s2)%list.
Proof.
  unfold encode_latin1, list_byte_of_string.
  induction s1 as [|a s1 IH]; simpl; [reflexivity | now rewrite IH].
Qed.

Lemma encode_latin1_length (s : str) :
  List.length (encode_latin1 s) = String.length s.
Proof.
  unfold encode_latin1, list_byte_of_string.
  induction s as [|a s IH]; simpl; [reflexivity | now rewrite IH].
Qed.

Lemma decode_encode_latin1 (s : str) : decode_latin1 (encode_latin1 s) = s.
Proof. apply string_of_list_byte_of_string. Qed.

Lemma decimal_value_str_of_len (n : nat) : decimal_value (str_of_len n) = Some n.
Proof.
  unfold decimal_value, str_of_len.
  rewrite NilZero.usu.
  - simpl. now rewrite DecimalNat.Unsigned.of_to.
  - intros H. pose proof (DecimalNat.Unsigned.of_to n) as E.
    rewrite H in E. simpl in E. subst n. discriminate H.
Qed.

(** ** Splitting on one character *)

Lemma contains_char (c a : ascii) (s : str) :
  contains (String c "") (String a s) = (a =? c)%char || contains (String c "") s.
Proof.
  simpl. destruct (ascii_dec c a) as [->|N].
  - rewrite Ascii.eqb_refl. now destruct s.
  - destruct (Ascii.eqb_spec a c) as [->|_]; [now elim N | reflexivity].
Qed.

Lemma split_char_cons (c a : ascii) (s : str) :
  split (String a s) (String c "") =
  if (a =? c)%char then "" :: split s (String c "")
  else cons_field a (split s (String c "")).
Proof.
  unfold split. simpl. destruct (ascii_dec c a) as [->|N].
  - rewrite Ascii.eqb_refl. now destruct s.
  - destruct (Ascii.eqb_spec a c) as [->|_]; [now elim N | reflexivity].
Qed.

Lemma split_from_not_nil (sep : str) (s : str) :
  forall skip, split_from sep skip s <> [].
Proof.
  induction s as [|a s IH]; intros skip; cbn [split_from]; [discriminate|].
  destruct skip as [|k]; [|apply IH].
  destruct (String.prefix sep (String a s)); [discriminate|].
  specialize (IH 0). destruct (split_from sep 0 s); [now elim IH | discriminate].
Qed.

Lemma split_not_nil (s sep : str) : split s sep <> [].
Proof. apply split_from_not_nil. Qed.

Lemma last_field_cons (f : str) (l : list str) :
  l <> [] -> last_field (f :: l) = last_field l.
Proof. destruct l; [now intros H; elim H | reflexivity]. Qed.

Lemma split_char_absent (c : ascii) (s : str) :
  contains (String c "") s = false -> split s (String c "") = [s].
Proof.
  induction s as [|a s IH]; [reflexivity|].
  rewrite contains_char, split_char_cons.
  destruct (a =? c)%char; [discriminate|]. simpl orb.
  intros H. now rewrite (IH H).
Qed.

Lemma split_char_present (c : ascii) (s : str) :
  contains (String c "") s = true ->
  exists f g rest, split s (String c "") = f :: g :: rest.
Proof.
  induction s as [|a s IH]; [discriminate|].
  rewrite contains_char, split_char_cons.
  destruct (a =? c)%char; simpl orb.
  - intros _. destruct (split s (String c "")) as [|g rest] eqn:E.
    + now elim (split_not_nil s (String c "")).
    + now exists "", g, rest.
  - intros H. destruct (IH H) as (f & g & rest & ->).
    now exists (String a f), g, rest.
Qed.

Lemma after_last_absent (c : ascii) (s : str) :
  contains (String c "") s = false -> after_last c s = s.
Proof.
  destruct s as [|a s]; [reflexivity|].
  rewrite contains_char. simpl.
  destruct (a =? c)%char; [discriminate|]. simpl orb.
  now intros ->.
Qed.

(** [s.split(c)[-1]] is the text after the last [c]. *)
Lemma last_field_split_char (c : ascii) (s : str) :
  last_field (split s (String c "")) = after_last c s.
Proof.
  induction s as [|a s IH]; [reflexivity|].
  rewrite split_char_cons. simpl after_last.
  destruct (a =? c)%char.
  - rewrite last_field_cons by apply split_not_nil. rewrite IH.
    destruct (contains (String c "") s) eqn:E; [reflexivity|].
    now apply after_last_absent.
  - destruct (contains (String c "") s) eqn:E.
    + destruct (split_char_present c s E) as (f & g & rest & Es).
      rewrite <- IH, Es. reflexivity.
    + now rewrite (split_char_absent c s E).
Qed.

(** ** Lower-casing *)

Ltac each_char a := destruct a as [[] [] [] [] [] [] [] []].

Lemma lower_char_idem (a : ascii) : lower_char (lower_char a) = lower_char a.
Proof. each_char a; reflexivity. Qed.

Lemma lower_char_dot (a : ascii) : (lower_char a =? ".")%char = (a =? ".")%char.
Proof. each_char a; reflexivity. Qed.

Lemma lower_char_slash (a : ascii) : (lower_char a =? "/")%char = (a =? "/")%char.
Proof. each_char a; reflexivity. Qed.

Lemma lower_idem (s : str) : lower (lower s) = lower s.
Proof.
  induction s as [|a s IH]; simpl; [reflexivity|].
  now rewrite lower_char_idem, IH.
Qed.

Section LowerKeeps.

(** A character that lower-casing neither creates nor removes. *)
Variable c : ascii.
Hypothesis keeps : forall a, (lower_char a =? c)%char = (a =? c)%char.

Lemma contains_lower (s : str) :
  contains (String c "") (lower s) = contains (String c "") s.
Proof.
  induction s as [|a s IH]; [reflexivity|].
  cbn [lower]. now rewrite !contains_char, keeps, IH.
Qed.

Lemma after_last_lower (s : str) :
  after_last c (lower s) = lower (after_last c s).
Proof.
  induction s as [|a s IH]; [reflexivity|].
  cbn [lower after_last]. rewrite contains_lower, keeps, IH.
  destruct (contains (String c "") s); [reflexivity|].
  destruct (a =? c)%char; reflexivity.
Qed.

End LowerKeeps.

(** ** The MIME table *)

Lemma MIME_TYPES_spec (ext : str) :
  dict_get MIME_TYPES ext DEFAULT_MIME_TYPE = spec_content_type ext.
Proof.
  unfold spec_content_type, MIME_TYPES, dict_get, DEFAULT_MIME_TYPE.
  rewrite !(String.eqb_sym ext).
  repeat match goal with
         | |- context [String.eqb ?k ext] =>
             destruct (String.eqb k ext); cbn [orb]; try reflexivity
         end.
Qed.

Lemma spec_content_type_slash (ext : str) :
  contains "/" ext = true -> spec_content_type ext = DEFAULT_MIME_TYPE.
Proof.
  intros H. unfold spec_content_type.
  repeat match goal with
         | |- context [String.eqb ext ?k] =>
             destruct (String.eqb_spec ext k) as [E|_];
             [rewrite E in H; discriminate H|]; cbn [orb]
         end.
  reflexivity.
Qed.

(** [get_mime_type] in terms of [after_last]. *)
Lemma get_mime_type_unfold (path : str) :
  get_mime_type path =
  if contains "." path
  then spec_content_type (lower (after_last "." path))
  else DEFAULT_MIME_TYPE.
Proof.
  unfold get_mime_type.
  now rewrite last_field_split_char, MIME_TYPES_spec.
Qed.

(** C6. The content type chosen by [get_mime_type] is the one the
    extension table gives, ignoring case, to the text after the last [.]
    of the final segment of the path, and [application/octet-stream] when
    that segment has no [.] or the extension is not in the table; the
    result depends on the path only, and lower-casing the path does not
    change it. *)
Theorem get_mime_type_by_final_segment (path : str) :
  get_mime_type path = spec_mime path /\
  get_mime_type (lower path) = get_mime_type path.
Proof.
  split.
  - rewrite get_mime_type_unfold. unfold spec_mime, final_segment.
    induction path as [|a s IH]; [reflexivity|].
    cbn [after_last]. rewrite (contains_char "." a s).
    destruct (contains "/" s) eqn:Hslash.
    + rewrite <- IH. destruct (contains "." s) eqn:Hdot.
      * now rewrite orb_true_r.
      * rewrite orb_false_r. destruct (a =? ".")%char; [|reflexivity].
        apply spec_content_type_slash.
        now rewrite (contains_lower "/" lower_char_slash).
    + destruct (Ascii.eqb_spec a "/") as [->|Ha].
      * cbn [Ascii.eqb Bool.eqb orb]. simpl (("/" =? ".")%char).
        cbn [orb]. destruct (contains "." s); reflexivity.
      * rewrite (contains_char "." a s). cbn [after_last].
        destruct (contains "." s); [now rewrite orb_true_r|].
        rewrite orb_false_r. destruct (a =? ".")%char; reflexivity.
  - rewrite !get_mime_type_unfold.
    rewrite (contains_lower "." lower_char_dot).
    rewrite (after_last_lower "." lower_char_dot).
    now rewrite lower_idem.
Qed.

Example mime_style_css : get_mime_type "/srv/www/style.css" = "text/css".
Proof. reflexivity. Qed.

Example mime_unknown_ext :
  get_mime_type "/srv/www/data.unknownext" = "application/octet-stream".
Proof. reflexivity. Qed.

Example mime_upper_case : get_mime_type "/srv/www/LOGO.PNG" = "image/png".
Proof. reflexivity. Qed.

Example mime_dot_in_directory_only :
  get_mime_type "/srv/www.d/html" = "application/octet-stream".
Proof. reflexivity. Qed.

(** ** The response framer *)

Lemma format_http_response_header (date : str) (status_code : Z)
    (status_text content_type : str) (content_body : bytes) :
  format_http_response date status_code status_text content_type content_body =
  (encode_latin1 (spec_header date status_code status_text content_type
                    (List.length content_body)) ++ content_body)%list.
Proof.
  unfold format_http_response, spec_header. cbn [String.concat].
  do 2 f_equal. now rewrite !append_assoc.
Qed.

(** C3. The framed response is the status line, then the headers Date,
    Server, Content-Type, Content-Length and Connection: close in that
    order, each closed by CRLF, a blank line, and the body unchanged; the
    header takes one byte per character, the body is all that follows it,
    and the Content-Length value denotes the length of the body. *)
Theorem format_http_response_frame (date : str) (status_code : Z)
    (status_text content_type : str) (content_body : bytes) :
  let header :=
    spec_header date status_code status_text content_type
      (List.length content_body) in
  let response :=
    format_http_response date status_code status_text content_type content_body in
  response = (encode_latin1 header ++ content_body)%list /\
  List.length (encode_latin1 header) = String.length header /\
  List.skipn (String.length header) response = content_body /\
  List.length response = String.length header + List.length content_body /\
  decimal_value (str_of_len (List.length content_body)) =
    Some (List.length content_body).
Proof.
  intros header response. subst response.
  rewrite format_http_response_header. fold header.
  pose proof (encode_latin1_length header) as L.
  repeat split.
  - exact L.
  - rewrite <- L. rewrite List.skipn_app, List.skipn_all, Nat.sub_diag.
    reflexivity.
  - now rewrite List.length_app, L.
  - apply decimal_value_str_of_len.
Qed.

Example format_http_response_ok :
  decode_latin1
    (format_http_response "Thu, 01 Jan 1970 00:00:00 GMT" 200 "OK" "text/html"
       (blit "hi")) =
  "HTTP/1.1 200 OK" ++ CRLF ++
  "Date: Thu, 01 Jan 1970 00:00:00 GMT" ++ CRLF ++
  "Server: BobsDiscountServer/2.1" ++ CRLF ++
  "Content-Type: text/html" ++ CRLF ++
  "Content-Length: 2" ++ CRLF ++
  "Connection: close" ++ CRLF ++ CRLF ++ "hi".
Proof. reflexivity. Qed.

(** ** [build_response] *)

Lemma build_response_unfold (unquote : str -> result str) (getcwd : str)
    (open_read : str -> result bytes) (date_header uri_path doc_root : str) :
  build_response unquote getcwd open_read date_header uri_path doc_root =
  match unquote uri_path with
  | Raise _ =>
      Return (format_http_response date_header 400 "Bad Request" "text/html"
                (blit "<h1>400 Bad Request</h1>"))
  | Return decoded =>
      serve_path getcwd open_read date_header
        (resolved_full_path decoded doc_root) doc_root
  end.
Proof. reflexivity. Qed.

(** Every response that [serve_path] returns is a 200 or a 404. *)
Lemma serve_path_status (getcwd : str) (open_read : str -> result bytes)
    (date_header full_path doc_root : str) (response : bytes) :
  serve_path getcwd open_read date_header full_path doc_root = Return response ->
  exists content_type body,
    response = format_http_response date_header 200 "OK" content_type body \/
    response = format_http_response date_header 404 "Not Found" content_type body.
Proof.
  unfold serve_path.
  destruct (passes_prefix_check getcwd full_path doc_root); cbn [negb].
  - destruct (open_read full_path) as [body|e].
    + intros [= <-]. eauto.
    + destruct (is_FileNotFoundError e); [|discriminate].
      intros [= <-]. eauto.
  - intros [= <-]. eauto.
Qed.

(** The three status lines start differently, whatever follows. *)
Lemma status_400_not_200 (d d' t c t' c' : str) (body body' : bytes) :
  format_http_response d 400 t c body <> format_http_response d' 200 t' c' body'.
Proof.
  intros H. apply (f_equal (List.firstn 12)) in H.
  unfold format_http_response in H. cbn in H. discriminate H.
Qed.

Lemma status_400_not_404 (d d' t c t' c' : str) (body body' : bytes) :
  format_http_response d 400 t c body <> format_http_response d' 404 t' c' body'.
Proof.
  intros H. apply (f_equal (List.firstn 12)) in H.
  unfold format_http_response in H. cbn in H. discriminate H.
Qed.

(** C7. A response returned by [build_response] carries one of the status
    lines 200 OK, 400 Bad Request and 404 Not Found. *)
Theorem build_response_status_lines (unquote : str -> result str) (getcwd : str)
    (open_read : str -> result bytes) (date_header uri_path doc_root : str)
    (response : bytes) :
  build_response unquote getcwd open_read date_header uri_path doc_root
    = Return response ->
  exists content_type body,
    response = format_http_response date_header 200 "OK" content_type body \/
    response = format_http_response date_header 400 "Bad Request" content_type body \/
    response = format_http_response date_header 404 "Not Found" content_type body.
Proof.
  rewrite build_response_unfold.
  destruct (unquote uri_path) as [decoded|e].
  - intros H. apply serve_path_status in H as (ct & body & [H|H]); eauto.
  - intros [= <-]. eauto.
Qed.

(** The [except] branch of step 1: it is taken when [unquote] raises, and
    a response with status 400 comes from nowhere else. *)
Lemma bad_request_branch (unquote : str -> result str) (getcwd : str)
    (open_read : str -> result bytes) (date_header uri_path doc_root : str) :
  (forall e, unquote uri_path = Raise e ->
     build_response unquote getcwd open_read date_header uri_path doc_root =
     Return (format_http_response date_header 400 "Bad Request" "text/html"
               (blit "<h1>400 Bad Request</h1>"))) /\
  (forall status_text content_type body,
     build_response unquote getcwd open_read date_header uri_path doc_root =
     Return (format_http_response date_header 400 status_text content_type body) ->
     exists e, unquote uri_path = Raise e).
Proof.
  rewrite build_response_unfold. split.
  - intros e ->. reflexivity.
  - intros t c body. destruct (unquote uri_path) as [decoded|e]; [|eauto].
    intros H. apply serve_path_status in H as (ct & body' & [H|H]).
    + now apply status_400_not_200 in H.
    + now apply status_400_not_404 in H.
Qed.

(** With a decoder that returns, no 400 response is produced. *)
Lemma no_bad_request_when_unquote_returns (unquote : str -> result str)
    (getcwd : str) (open_read : str -> result bytes)
    (date_header uri_path doc_root decoded status_text content_type : str)
    (body : bytes) :
  unquote uri_path = Return decoded ->
  build_response unquote getcwd open_read date_header uri_path doc_root <>
  Return (format_http_response date_header 400 status_text content_type body).
Proof.
  intros Hd H.
  apply (proj2 (bad_request_branch unquote getcwd open_read date_header
                  uri_path doc_root)) in H as (e & He).
  rewrite Hd in He. discriminate He.
Qed.

Example unquote_escapes :
  urllib_unquote "/a%20b%2Fc%7e" = Return "/a b/c~" /\
  urllib_unquote "/%2e%2E/www-secret/key.txt" = Return "/../www-secret/key.txt" /\
  urllib_unquote "/plain/path.html" = Return "/plain/path.html".
Proof. repeat split. Qed.

Example unquote_keeps_malformed_escapes :
  urllib_unquote "/%zz" = Return "/%zz" /\
  urllib_unquote "/100%" = Return "/100%" /\
  urllib_unquote "/a%4" = Return "/a%4" /\
  urllib_unquote "%%41" = Return "%A" /\
  urllib_unquote "%4%41" = Return "%4A".
Proof. repeat split. Qed.

(** C8. The request path [/%zz] has a malformed percent-escape.
    [unquote] does not raise on it and returns it unchanged, so the
    [except] branch that answers 400 Bad Request is not taken: the path
    is resolved like any other and, no such file existing, the answer is
    404 Not Found; no 400 response is returned. *)
Theorem malformed_escape_not_bad_request :
  let uri_path := "/%zz" in
  let doc_root := "/srv/www" in
  low_escapes uri_path = true /\
  urllib_unquote uri_path = Return "/%zz" /\
  resolved_full_path "/%zz" doc_root = "/srv/www/%zz" /\
  build_response urllib_unquote www_cwd www_open www_date uri_path doc_root =
    Return (format_http_response www_date 404 "Not Found" "text/html"
              (blit "<h1>404 Not Found</h1>")) /\
  (forall status_text content_type body,
     build_response urllib_unquote www_cwd www_open www_date uri_path doc_root <>
     Return (format_http_response www_date 400 status_text content_type body)).
Proof.
  cbv zeta. repeat split.
  intros status_text content_type body.
  now apply no_bad_request_when_unquote_returns with (decoded := "/%zz").
Qed.

(** The same path is served when a file of that name exists. *)
Example malformed_escape_served :
  build_response urllib_unquote "/"
    (fs_open "/" [("/srv/www/%zz", blit "odd name")] ["/srv/www"])
    www_date "/%zz" "/srv/www" =
  Return (format_http_response www_date 200 "OK" "application/octet-stream"
            (blit "odd name")).
Proof. reflexivity. Qed.

Lemma build_response_status_lines_witness :
  build_response unquote_plain www_cwd www_open www_date "/style.css" "/srv/www" =
    Return (format_http_response www_date 200 "OK" "text/css" (blit "p{}")) /\
  exists content_type body,
    format_http_response www_date 200 "OK" "text/css" (blit "p{}") =
      format_http_response www_date 200 "OK" content_type body \/
    format_http_response www_date 200 "OK" "text/css" (blit "p{}") =
      format_http_response www_date 400 "Bad Request" content_type body \/
    format_http_response www_date 200 "OK" "text/css" (blit "p{}") =
      format_http_response www_date 404 "Not Found" content_type body.
Proof.
  split; [reflexivity|].
  apply (build_response_status_lines unquote_plain www_cwd www_open www_date
           "/style.css" "/srv/www").
  reflexivity.
Defined.

(** The two 404 bodies end differently, so the responses differ whatever
    their dates. *)
Lemma not_found_responses_differ (d1 d2 : str) :
  format_http_response d1 404 "Not Found" "text/html"
    (blit "<h1>404 Not Found (Security Violation)</h1>") <>
  format_http_response d2 404 "Not Found" "text/html"
    (blit "<h1>404 Not Found</h1>").
Proof.
  intros H. apply (f_equal (fun l => List.firstn 6 (List.rev l))) in H.
  rewrite !format_http_response_header, !List.rev_app_distr in H.
  cbn in H. discriminate H.
Qed.

(** C10. A path that fails the prefix check gets the 404 response whose
    body is [<h1>404 Not Found (Security Violation)</h1>], a missing file
    the 404 response whose body is [<h1>404 Not Found</h1>]; the two
    responses are different byte strings. *)
Theorem not_found_bodies_distinguish (unquote : str -> result str) (getcwd : str)
    (open_read : str -> result bytes) (date_header uri_path doc_root decoded : str) :
  unquote uri_path = Return decoded ->
  let full_path := resolved_full_path decoded doc_root in
  (passes_prefix_check getcwd full_path doc_root = false ->
   build_response unquote getcwd open_read date_header uri_path doc_root =
   Return (format_http_response date_header 404 "Not Found" "text/html"
             (blit "<h1>404 Not Found (Security Violation)</h1>"))) /\
  (passes_prefix_check getcwd full_path doc_root = true ->
   open_read full_path = Raise FileNotFoundError ->
   build_response unquote getcwd open_read date_header uri_path doc_root =
   Return (format_http_response date_header 404 "Not Found" "text/html"
             (blit "<h1>404 Not Found</h1>"))) /\
  (forall d1 d2,
     format_http_response d1 404 "Not Found" "text/html"
       (blit "<h1>404 Not Found (Security Violation)</h1>") <>
     format_http_response d2 404 "Not Found" "text/html"
       (blit "<h1>404 Not Found</h1>")).
Proof.
  intros Hd full_path. rewrite build_response_unfold, Hd. fold full_path.
  unfold serve_path. repeat split.
  - intros ->. reflexivity.
  - intros -> ->. reflexivity.
  - apply not_found_responses_differ.
Qed.

Lemma not_found_bodies_distinguish_witness :
  build_response unquote_plain www_cwd www_open www_date
    "/../../etc/passwd" "/srv/www" =
  Return (format_http_response www_date 404 "Not Found" "text/html"
            (blit "<h1>404 Not Found (Security Violation)</h1>")) /\
  build_response unquote_plain www_cwd www_open www_date
    "/missing.html" "/srv/www" =
  Return (format_http_response www_date 404 "Not Found" "text/html"
            (blit "<h1>404 Not Found</h1>")).
Proof.
  split.
  - apply (proj1 (not_found_bodies_distinguish unquote_plain www_cwd www_open
                    www_date "/../../etc/passwd" "/srv/www" "/../../etc/passwd"
                    eq_refl)).
    reflexivity.
  - apply (proj1 (proj2 (not_found_bodies_distinguish unquote_plain www_cwd
                           www_open www_date "/missing.html" "/srv/www"
                           "/missing.html" eq_refl))).
    + reflexivity.
    + reflexivity.
Defined.

(** C5. When the decoded URI path ends with [/], [index.html] is appended
    to it before the leading slashes are stripped and the rest is joined
    to the document root, and that joined path is the one checked and
    read. *)
Theorem index_html_appended (unquote : str -> result str) (getcwd : str)
    (open_read : str -> result bytes) (date_header uri_path doc_root decoded : str) :
  unquote uri_path = Return decoded ->
  endswith decoded "/" = true ->
  resolved_full_path decoded doc_root =
    posixpath.join doc_root (lstrip (decoded ++ "index.html") "/") /\
  build_response unquote getcwd open_read date_header uri_path doc_root =
    serve_path getcwd open_read date_header
      (posixpath.join doc_root (lstrip (decoded ++ "index.html") "/")) doc_root.
Proof.
  intros Hd He. rewrite build_response_unfold, Hd.
  unfold resolved_full_path. rewrite He. split; reflexivity.
Qed.

Lemma index_html_appended_witness :
  resolved_full_path "/sub/" "/srv/www" = "/srv/www/sub/index.html" /\
  build_response unquote_plain www_cwd www_open www_date "/sub/" "/srv/www" =
    Return (format_http_response www_date 200 "OK" "text/html" (blit "<p>sub</p>")).
Proof.
  destruct (index_html_appended unquote_plain www_cwd www_open www_date
              "/sub/" "/srv/www" "/sub/" eq_refl eq_refl) as [Hp Hb].
  split.
  - rewrite Hp. reflexivity.
  - rewrite Hb. reflexivity.
Defined.

(** The root URI and a directory URI, for any document root. *)
Example index_of_root (doc_root : str) :
  resolved_full_path "/" doc_root = posixpath.join doc_root "index.html".
Proof. reflexivity. Qed.

Example index_of_sub (doc_root : str) :
  resolved_full_path "/sub/" doc_root = posixpath.join doc_root "sub/index.html".
Proof. reflexivity. Qed.

Example index_of_root_served :
  build_response unquote_plain www_cwd www_open www_date "/" "/srv/www" =
  Return (format_http_response www_date 200 "OK" "text/html" (blit "<p>home</p>")).
Proof. reflexivity. Qed.

(** ** The prefix check *)

(** Paths that climb out of the document root are rejected when the
    normalized result no longer starts with the root. *)
Example dotdot_rejected :
  build_response unquote_plain www_cwd www_open www_date
    "/../../etc/passwd" "/srv/www" =
  Return (format_http_response www_date 404 "Not Found" "text/html"
            (blit "<h1>404 Not Found (Security Violation)</h1>")).
Proof. reflexivity. Qed.

(** C1. With document root [/srv/www], the request path
    [/../www-secret/key.txt] resolves to [/srv/www-secret/key.txt], which
    is outside the subtree of the root; the prefix check lets it through
    and the file is served with status 200. *)
Theorem prefix_check_passes_sibling_directory :
  let uri_path := "/../www-secret/key.txt" in
  let doc_root := "/srv/www" in
  let full_path := resolved_full_path uri_path doc_root in
  posixpath.abspath www_cwd full_path = "/srv/www-secret/key.txt" /\
  passes_prefix_check www_cwd full_path doc_root = true /\
  in_subtree (posixpath.abspath www_cwd doc_root)
             (posixpath.abspath www_cwd full_path) = false /\
  build_response unquote_plain www_cwd www_open www_date uri_path doc_root =
    Return (format_http_response www_date 200 "OK" "text/plain" (blit "secret")).
Proof. repeat split. Qed.

(** ** Failures of the file load *)

(** Only [FileNotFoundError] is turned into a response; any other
    exception of the load leaves [build_response]. *)
Lemma load_failure_propagates (unquote : str -> result str) (getcwd : str)
    (open_read : str -> result bytes) (date_header uri_path doc_root decoded : str)
    (e : exception) :
  unquote uri_path = Return decoded ->
  passes_prefix_check getcwd (resolved_full_path decoded doc_root) doc_root = true ->
  open_read (resolved_full_path decoded doc_root) = Raise e ->
  is_FileNotFoundError e = false ->
  build_response unquote getcwd open_read date_header uri_path doc_root = Raise e.
Proof.
  intros Hd Hc Ho He. rewrite build_response_unfold, Hd.
  unfold serve_path. now rewrite Hc, Ho, He.
Qed.

(** C2. A GET for [/sub], a directory below the document root, passes the
    prefix check; the load raises [IsADirectoryError], which
    [build_response] does not catch: the exception leaves
    [handle_request], no byte is written and [close] is not called. *)
Theorem directory_request_escapes_handler :
  let request := blit ("GET /sub HTTP/1.1" ++ CRLF ++ "Host: example" ++ CRLF ++ CRLF) in
  passes_prefix_check www_cwd (resolved_full_path "/sub" "/srv/www") "/srv/www" = true /\
  www_open (resolved_full_path "/sub" "/srv/www") = Raise IsADirectoryError /\
  build_response unquote_plain www_cwd www_open www_date "/sub" "/srv/www" =
    Raise IsADirectoryError /\
  handle_request unquote_plain www_cwd www_open www_date
    (connection [Return request]) "/srv/www" =
  (Raise IsADirectoryError, mkSocket [] None [] 0).
Proof. repeat split. Qed.

(** The same with a file that may not be read. *)
Example permission_denied_escapes_handler :
  handle_request unquote_plain www_cwd (fun _ => Raise PermissionError) www_date
    (connection [Return (blit ("GET /private.txt HTTP/1.1" ++ CRLF ++ CRLF))])
    "/srv/www" =
  (Raise PermissionError, mkSocket [] None [] 0).
Proof. reflexivity. Qed.

(** ** [handle_request] *)

Lemma first_line_empty : first_line [] = "".
Proof. reflexivity. Qed.

(** What [handle_request] does once the read loop has returned a buffer,
    by the tokens of the first line. *)
Lemma handle_request_received (unquote : str -> result str) (getcwd : str)
    (open_read : str -> result bytes) (date_header : str) (client_socket : socket)
    (doc_root : str) (request_data : bytes) (rest : list (result bytes)) :
  recv_loop (recv_script client_socket) [] = (Return request_data, rest) ->
  handle_request unquote getcwd open_read date_header client_socket doc_root =
  let client_socket := set_recv_script client_socket rest in
  match split_ws (first_line request_data) with
  | [method; uri_path; http_version] =>
      if method =? "GET" then
        match build_response unquote getcwd open_read date_header uri_path doc_root with
        | Raise e => (Raise e, client_socket)
        | Return response_bytes =>
            match sendall client_socket response_bytes with
            | (Return _, client_socket) => (Return tt, close client_socket)
            | (Raise e, client_socket) =>
                if is_OSError e then (Return tt, close client_socket)
                else (Raise e, client_socket)
            end
        end
      else (Return tt, close client_socket)
  | _ => (Return tt, close client_socket)
  end.
Proof.
  intros H. unfold handle_request. rewrite H.
  destruct request_data as [|x request_data]; [reflexivity|].
  cbn [is_empty]. unfold parse_request_line. fold (first_line (x :: request_data)).
  destruct (split_ws (first_line (x :: request_data))) as [|m [|u [|v [|w l]]]];
    try reflexivity.
  destruct (m =? "GET"); reflexivity.
Qed.

(** C4 (as amended). When the first line of the received buffer does not
    split into exactly three tokens, or its first token is not [GET], the
    handler closes the connection once and writes nothing. *)
Theorem malformed_request_closed_silently (unquote : str -> result str)
    (getcwd : str) (open_read : str -> result bytes) (date_header : str)
    (client_socket : socket) (doc_root : str) (request_data : bytes)
    (rest : list (result bytes)) :
  recv_loop (recv_script client_socket) [] = (Return request_data, rest) ->
  (forall method uri_path http_version,
     split_ws (first_line request_data) = [method; uri_path; http_version] ->
     method <> "GET") ->
  let outcome :=
    handle_request unquote getcwd open_read date_header client_socket doc_root in
  outcome = (Return tt, close (set_recv_script client_socket rest)) /\
  sent (snd outcome) = sent client_socket /\
  close_calls (snd outcome) = S (close_calls client_socket).
Proof.
  intros Hr Hbad outcome.
  assert (E : outcome = (Return tt, close (set_recv_script client_socket rest))).
  { subst outcome. rewrite (handle_request_received _ _ _ _ _ _ _ _ Hr).
    cbv zeta.
    destruct (split_ws (first_line request_data)) as [|m [|u [|v [|w l]]]];
      try reflexivity.
    destruct (String.eqb_spec m "GET") as [->|_]; [|reflexivity].
    now elim (Hbad "GET" u v). }
  rewrite E. repeat split.
Qed.

Lemma malformed_request_closed_silently_witness :
  handle_request unquote_plain www_cwd www_open www_date
    (connection [Return (blit ("HELLO" ++ CRLF ++ CRLF))]) "/srv/www" =
  (Return tt, close (set_recv_script
                       (connection [Return (blit ("HELLO" ++ CRLF ++ CRLF))]) [])).
Proof.
  apply (malformed_request_closed_silently unquote_plain www_cwd www_open www_date
           (connection [Return (blit ("HELLO" ++ CRLF ++ CRLF))]) "/srv/www"
           (blit ("HELLO" ++ CRLF ++ CRLF)) []).
  - reflexivity.
  - intros method uri_path http_version H. discriminate H.
Defined.

Example post_request_closed_silently :
  handle_request unquote_plain www_cwd www_open www_date
    (connection [Return (blit ("POST /index.html HTTP/1.1" ++ CRLF ++ CRLF))])
    "/srv/www" =
  (Return tt, mkSocket [] None [] 1).
Proof. reflexivity. Qed.

(** C4 (as stated) fails: the peer sends a request line with no CRLF at
    all and closes its side; the buffer has no terminated header section,
    and the file is served all the same. *)
Lemma unterminated_request_is_served :
  let request := blit "GET /index.html HTTP/1.1" in
  bytes_contains (blit CRLF) request = false /\
  handle_request unquote_plain www_cwd www_open www_date
    (connection [Return request]) "/srv/www" =
  (Return tt,
   mkSocket [] None
     (format_http_response www_date 200 "OK" "text/html" (blit "<p>home</p>")) 1) /\
  format_http_response www_date 200 "OK" "text/html" (blit "<p>home</p>") <> [].
Proof. repeat split. discriminate. Qed.

(** ** Dependence on the date only through the Date header *)

(** Two runs of [build_response] that differ in the clock reading only
    raise the same exception, or frame the same status, content type and
    body. *)
Lemma build_response_dates (unquote : str -> result str) (getcwd : str)
    (open_read : str -> result bytes) (d1 d2 uri_path doc_root : str) :
  (exists e,
     build_response unquote getcwd open_read d1 uri_path doc_root = Raise e /\
     build_response unquote getcwd open_read d2 uri_path doc_root = Raise e) \/
  (exists status_code status_text content_type body,
     build_response unquote getcwd open_read d1 uri_path doc_root =
       Return (format_http_response d1 status_code status_text content_type body) /\
     build_response unquote getcwd open_read d2 uri_path doc_root =
       Return (format_http_response d2 status_code status_text content_type body)).
Proof.
  rewrite !build_response_unfold.
  destruct (unquote uri_path) as [decoded|e]; [|right; eauto 6].
  unfold serve_path.
  destruct (passes_prefix_check getcwd (resolved_full_path decoded doc_root) doc_root);
    cbn [negb]; [|right; eauto 6].
  destruct (open_read (resolved_full_path decoded doc_root)) as [body|e];
    [right; eauto 6|].
  destruct (is_FileNotFoundError e); [right; eauto 6 | left; eauto].
Qed.

(** C9. Two fresh connections whose received buffers have the same first
    line, served against the same document root, file system and working
    directory, end the same way, and what is written on them is either
    nothing on both or the same status line, content type and body framed
    with the two dates: the responses differ in the Date header at most,
    and are equal when the dates are. *)
Theorem response_determined_by_first_line (unquote : str -> result str)
    (getcwd : str) (open_read : str -> result bytes) (d1 d2 : str)
    (script1 script2 : list (result bytes)) (doc_root : str)
    (data1 data2 : bytes) (rest1 rest2 : list (result bytes)) :
  recv_loop script1 [] = (Return data1, rest1) ->
  recv_loop script2 [] = (Return data2, rest2) ->
  first_line data1 = first_line data2 ->
  let outcome1 :=
    handle_request unquote getcwd open_read d1 (connection script1) doc_root in
  let outcome2 :=
    handle_request unquote getcwd open_read d2 (connection script2) doc_root in
  fst outcome1 = fst outcome2 /\
  close_calls (snd outcome1) = close_calls (snd outcome2) /\
  ((sent (snd outcome1) = [] /\ sent (snd outcome2) = []) \/
   (exists status_code status_text content_type body,
      sent (snd outcome1) =
        format_http_response d1 status_code status_text content_type body /\
      sent (snd outcome2) =
        format_http_response d2 status_code status_text content_type body)) /\
  (d1 = d2 -> sent (snd outcome1) = sent (snd outcome2)).
Proof.
  intros H1 H2 Hline outcome1 outcome2. subst outcome1 outcome2.
  rewrite (handle_request_received _ _ _ _ (connection script1) _ _ _ H1).
  rewrite (handle_request_received _ _ _ _ (connection script2) _ _ _ H2).
  rewrite <- Hline. cbv zeta.
  assert (Silent : forall (r : result unit) (k : nat),
            fst (r, mkSocket rest1 None [] k) = fst (r, mkSocket rest2 None [] k) /\
            close_calls (snd (r, mkSocket rest1 None [] k)) =
              close_calls (snd (r, mkSocket rest2 None [] k)) /\
            ((sent (snd (r, mkSocket rest1 None [] k)) = [] /\
              sent (snd (r, mkSocket rest2 None [] k)) = []) \/
             (exists status_code status_text content_type body,
                sent (snd (r, mkSocket rest1 None [] k)) =
                  format_http_response d1 status_code status_text content_type body /\
                sent (snd (r, mkSocket rest2 None [] k)) =
                  format_http_response d2 status_code status_text content_type body)) /\
            (d1 = d2 ->
             sent (snd (r, mkSocket rest1 None [] k)) =
               sent (snd (r, mkSocket rest2 None [] k)))).
  { intros r k. cbn [fst snd sent close_calls]. auto 6. }
  destruct (split_ws (first_line data1)) as [|m [|u [|v [|w l]]]];
    try apply Silent.
  destruct (m =? "GET"); [|apply Silent].
  destruct (build_response_dates unquote getcwd open_read d1 d2 u doc_root)
    as [(e & -> & ->)|(code & text & ct & body & -> & ->)].
  - apply Silent.
  - cbv [connection set_recv_script sendall sendall_fault close fst snd sent
           close_calls recv_script].
    rewrite !List.app_nil_l.
    split; [reflexivity|]. split; [reflexivity|].
    split; [right; eauto 6 | now intros ->].
Qed.

Lemma response_determined_by_first_line_witness :
  let script1 :=
    [Return (blit ("GET /style.css HTTP/1.1" ++ CRLF ++ "Host: a" ++ CRLF ++ CRLF))] in
  let script2 :=
    [Return (blit ("GET /style.css HTTP/1.1" ++ CRLF));
     Return (blit ("Accept: text/css" ++ CRLF ++ CRLF))] in
  let d1 := "Tue, 03 Nov 2026 12:00:00 GMT" in
  let d2 := "Tue, 03 Nov 2026 12:00:07 GMT" in
  let outcome1 :=
    handle_request unquote_plain www_cwd www_open d1 (connection script1) "/srv/www" in
  let outcome2 :=
    handle_request unquote_plain www_cwd www_open d2 (connection script2) "/srv/www" in
  fst outcome1 = fst outcome2 /\
  close_calls (snd outcome1) = close_calls (snd outcome2) /\
  ((sent (snd outcome1) = [] /\ sent (snd outcome2) = []) \/
   (exists status_code status_text content_type body,
      sent (snd outcome1) =
        format_http_response d1 status_code status_text content_type body /\
      sent (snd outcome2) =
        format_http_response d2 status_code status_text content_type body)) /\
  (d1 = d2 -> sent (snd outcome1) = sent (snd outcome2)).
Proof.
  intros script1 script2 d1 d2.
  apply (response_determined_by_first_line unquote_plain www_cwd www_open d1 d2
           script1 script2 "/srv/www"
           (blit ("GET /style.css HTTP/1.1" ++ CRLF ++ "Host: a" ++ CRLF ++ CRLF))
           (blit ("GET /style.css HTTP/1.1" ++ CRLF ++ "Accept: text/css" ++ CRLF ++ CRLF))
           [] []).
  - reflexivity.
  - reflexivity.
  - reflexivity.
Defined.

Example same_request_two_dates :
  sent (snd (handle_request unquote_plain www_cwd www_open
               "Tue, 03 Nov 2026 12:00:00 GMT"
               (connection [Return (blit ("GET /style.css HTTP/1.1" ++ CRLF ++ CRLF))])
               "/srv/www")) =
  format_http_response "Tue, 03 Nov 2026 12:00:00 GMT" 200 "OK" "text/css" (blit "p{}").
Proof. reflexivity. Qed.

(** * Further properties of the handler *)

(** ** The socket as [handle_request] leaves it *)

Lemma recv_loop_consumes (script : list (result bytes)) :
  forall request_data r rest,
    recv_loop script request_data = (r, rest) ->
    exists consumed, script = (consumed ++ rest)%list.
Proof.
  induction script as [|[chunk|e] script IH]; intros request_data r rest; cbn [recv_loop].
  - intros [= _ <-]. now exists [].
  - destruct (is_empty chunk).
    + intros [= _ <-]. now exists [Return chunk].
    + destruct (bytes_contains _ _).
      * intros [= _ <-]. now exists [Return chunk].
      * intros H. destruct (IH _ _ _ H) as (consumed & ->).
        now exists (Return chunk :: consumed).
  - intros [= _ <-]. now exists [Raise e].
Qed.

(** X1. Whatever arrives, [handle_request] only reads from the front of
    what the peer sends, only appends to what was written, and calls
    [close] exactly once when it returns and not at all when an
    exception escapes it. *)
Theorem handle_request_socket_discipline (unquote : str -> result str)
    (getcwd : str) (open_read : str -> result bytes) (date_header : str)
    (client_socket : socket) (doc_root : str) :
  let outcome :=
    handle_request unquote getcwd open_read date_header client_socket doc_root in
  (exists consumed,
     recv_script client_socket = (consumed ++ recv_script (snd outcome))%list) /\
  (exists written, sent (snd outcome) = (sent client_socket ++ written)%list) /\
  close_calls (snd outcome) =
    match fst outcome with
    | Return _ => S (close_calls client_socket)
    | Raise _ => close_calls client_socket
    end.
Proof.
  intros outcome. subst outcome.
  destruct (recv_loop (recv_script client_socket) []) as [[data|e] rest] eqn:Hr.
  - destruct (recv_loop_consumes _ _ _ _ Hr) as (consumed & Hc).
    rewrite (handle_request_received _ _ _ _ _ _ _ _ Hr). cbv zeta.
    assert (Silent :
      (exists consumed0,
         recv_script client_socket =
         (consumed0 ++ recv_script (snd (Return tt, close (set_recv_script client_socket rest))))%list) /\
      (exists written,
         sent (snd (Return tt, close (set_recv_script client_socket rest))) =
         (sent client_socket ++ written)%list) /\
      close_calls (snd (Return tt, close (set_recv_script client_socket rest))) =
        match fst (Return tt, close (set_recv_script client_socket rest)) with
        | Return _ => S (close_calls client_socket)
        | Raise _ => close_calls client_socket
        end).
    { cbn. repeat split; [now exists consumed | exists []; now rewrite List.app_nil_r]. }
    destruct (split_ws (first_line data)) as [|m [|u [|v [|w l]]]]; try exact Silent.
    destruct (m =? "GET"); [|exact Silent].
    destruct (build_response unquote getcwd open_read date_header u doc_root)
      as [response|e].
    + unfold sendall. cbn [sendall_fault set_recv_script].
      destruct (sendall_fault client_socket) as [[k e]|].
      * destruct (is_OSError e); cbn;
          (repeat split; [now exists consumed | now eexists]).
      * cbn. repeat split; [now exists consumed | now eexists].
    + cbn. repeat split; [now exists consumed | exists []; now rewrite List.app_nil_r].
  - destruct (recv_loop_consumes _ _ _ _ Hr) as (consumed & Hc).
    unfold handle_request. rewrite Hr.
    destruct (is_OSError e); cbn;
      (repeat split; [now exists consumed | exists []; now rewrite List.app_nil_r]).
Qed.

(** X2. Bytes are written only after a buffer was received whose first
    line splits into three tokens, the first being [GET], and for which
    [build_response] returned a response. *)
Theorem response_only_for_get (unquote : str -> result str)
    (getcwd : str) (open_read : str -> result bytes) (date_header : str)
    (client_socket : socket) (doc_root : str) :
  sent (snd (handle_request unquote getcwd open_read date_header
               client_socket doc_root)) <> sent client_socket ->
  exists request_data rest uri_path http_version response,
    recv_loop (recv_script client_socket) [] = (Return request_data, rest) /\
    split_ws (first_line request_data) = ["GET"; uri_path; http_version] /\
    build_response unquote getcwd open_read date_header uri_path doc_root =
      Return response.
Proof.
  destruct (recv_loop (recv_script client_socket) []) as [[data|e] rest] eqn:Hr.
  - rewrite (handle_request_received _ _ _ _ _ _ _ _ Hr). cbv zeta.
    destruct (split_ws (first_line data)) as [|m [|u [|v [|w l]]]] eqn:Hs;
      try (cbn; intros H; now elim H).
    destruct (String.eqb_spec m "GET") as [->|_]; [|cbn; intros H; now elim H].
    destruct (build_response unquote getcwd open_read date_header u doc_root)
      as [response|e] eqn:Hb; [|cbn; intros H; now elim H].
    intros _. now exists data, rest, u, v, response.
  - unfold handle_request. rewrite Hr.
    destruct (is_OSError e); cbn; intros H; now elim H.
Qed.

Lemma response_only_for_get_witness :
  exists request_data rest uri_path http_version response,
    recv_loop
      (recv_script
         (connection [Return (blit ("GET /style.css HTTP/1.1" ++ CRLF ++ CRLF))])) []
      = (Return request_data, rest) /\
    split_ws (first_line request_data) = ["GET"; uri_path; http_version] /\
    build_response unquote_plain www_cwd www_open www_date uri_path "/srv/www" =
      Return response.
Proof.
  apply (response_only_for_get unquote_plain www_cwd www_open www_date
           (connection [Return (blit ("GET /style.css HTTP/1.1" ++ CRLF ++ CRLF))])
           "/srv/www").
  vm_compute. discriminate.
Defined.

(** X3. When [sendall] fails with a socket error part-way through, the
    handler does not retry: what went out stays as it is, the connection
    is closed once and the handler returns. *)
Theorem send_failure_closes (unquote : str -> result str)
    (getcwd : str) (open_read : str -> result bytes) (date_header : str)
    (script rest : list (result bytes)) (k : nat) (e : exception)
    (doc_root : str) (request_data response : bytes) (uri_path http_version : str) :
  recv_loop script [] = (Return request_data, rest) ->
  split_ws (first_line request_data) = ["GET"; uri_path; http_version] ->
  build_response unquote getcwd open_read date_header uri_path doc_root =
    Return response ->
  is_OSError e = true ->
  handle_request unquote getcwd open_read date_header
    (mkSocket script (Some (k, e)) [] 0) doc_root =
  (Return tt, mkSocket rest (Some (k, e)) (List.firstn k response) 1).
Proof.
  intros Hr Hs Hb He.
  rewrite (handle_request_received _ _ _ _ (mkSocket script (Some (k, e)) [] 0)
             _ _ _ Hr).
  cbv zeta. rewrite Hs. cbn [String.eqb Ascii.eqb Bool.eqb]. rewrite Hb.
  unfold sendall. cbn [sendall_fault set_recv_script]. rewrite He. reflexivity.
Qed.

Lemma send_failure_closes_witness :
  handle_request unquote_plain www_cwd www_open www_date
    (mkSocket [Return (blit ("GET /style.css HTTP/1.1" ++ CRLF ++ CRLF))]
       (Some (20, BrokenPipeError)) [] 0) "/srv/www" =
  (Return tt,
   mkSocket [] (Some (20, BrokenPipeError))
     (List.firstn 20
        (format_http_response www_date 200 "OK" "text/css" (blit "p{}"))) 1).
Proof.
  apply (send_failure_closes unquote_plain www_cwd www_open www_date
           [Return (blit ("GET /style.css HTTP/1.1" ++ CRLF ++ CRLF))] []
           20 BrokenPipeError "/srv/www"
           (blit ("GET /style.css HTTP/1.1" ++ CRLF ++ CRLF))
           (format_http_response www_date 200 "OK" "text/css" (blit "p{}"))
           "/style.css" "HTTP/1.1").
  - reflexivity.
  - reflexivity.
  - reflexivity.
  - reflexivity.
Defined.

(** X4. The third token of the request line is never looked at, nor is
    the amount of white space around the tokens: two connections whose
    first lines give the same method and URI path are answered alike. *)
Theorem http_version_ignored (unquote : str -> result str)
    (getcwd : str) (open_read : str -> result bytes) (date_header : str)
    (script1 script2 rest1 rest2 : list (result bytes)) (doc_root : str)
    (data1 data2 : bytes) (method uri_path version1 version2 : str) :
  recv_loop script1 [] = (Return data1, rest1) ->
  recv_loop script2 [] = (Return data2, rest2) ->
  split_ws (first_line data1) = [method; uri_path; version1] ->
  split_ws (first_line data2) = [method; uri_path; version2] ->
  let outcome1 :=
    handle_request unquote getcwd open_read date_header (connection script1) doc_root in
  let outcome2 :=
    handle_request unquote getcwd open_read date_header (connection script2) doc_root in
  fst outcome1 = fst outcome2 /\
  sent (snd outcome1) = sent (snd outcome2) /\
  close_calls (snd outcome1) = close_calls (snd outcome2).
Proof.
  intros H1 H2 Hs1 Hs2 outcome1 outcome2. subst outcome1 outcome2.
  rewrite (handle_request_received _ _ _ _ (connection script1) _ _ _ H1).
  rewrite (handle_request_received _ _ _ _ (connection script2) _ _ _ H2).
  cbv zeta. rewrite Hs1, Hs2.
  destruct (method =? "GET"); [|now cbn].
  destruct (build_response unquote getcwd open_read date_header uri_path doc_root);
    now cbn.
Qed.

Lemma http_version_ignored_witness :
  let script1 := [Return (blit ("GET /style.css HTTP/1.1" ++ CRLF ++ CRLF))] in
  let script2 := [Return (blit ("  GET   /style.css  gopher" ++ CRLF ++ CRLF))] in
  let outcome1 :=
    handle_request unquote_plain www_cwd www_open www_date (connection script1)
      "/srv/www" in
  let outcome2 :=
    handle_request unquote_plain www_cwd www_open www_date (connection script2)
      "/srv/www" in
  fst outcome1 = fst outcome2 /\
  sent (snd outcome1) = sent (snd outcome2) /\
  close_calls (snd outcome1) = close_calls (snd outcome2).
Proof.
  intros script1 script2.
  apply (http_version_ignored unquote_plain www_cwd www_open www_date
           script1 script2 [] [] "/srv/www"
           (blit ("GET /style.css HTTP/1.1" ++ CRLF ++ CRLF))
           (blit ("  GET   /style.css  gopher" ++ CRLF ++ CRLF))
           "GET" "/style.css" "HTTP/1.1" "gopher").
  - reflexivity.
  - reflexivity.
  - reflexivity.
  - reflexivity.
Defined.

(** ** The tokens of the request line *)

Lemma split_ws_tokens (s : str) : List.Forall token_ok (split_ws s).
Proof.
  induction s as [|a s IH]; [constructor|].
  cbn [split_ws]. destruct (isspace a) eqn:Ha; [exact IH|].
  assert (Hone : token_ok (String a "")).
  { split; [discriminate|]. cbn. unfold not_space. now rewrite Ha. }
  destruct s as [|c s']; [now constructor|].
  destruct (isspace c) eqn:Hc; [now constructor|].
  destruct (split_ws (String c s')) as [|f fs]; [now constructor|].
  cbn [cons_field]. inversion IH as [|? ? [Hf1 Hf2] Hfs]; subst.
  constructor; [|exact Hfs].
  split; [discriminate|]. cbn [all_chars]. unfold not_space at 1.
  now rewrite Ha, Hf2.
Qed.

(** X5. The method, URI path and version that the request-line parser
    hands on are never empty and contain no white space (so no CR or LF
    either). *)
Theorem request_tokens_clean (request_data : bytes) (method uri_path http_version : str) :
  parse_request_line request_data = Return (method, uri_path, http_version) ->
  token_ok method /\ token_ok uri_path /\ token_ok http_version.
Proof.
  unfold parse_request_line.
  pose proof (split_ws_tokens
                (List.hd "" (split (decode_latin1 request_data) CRLF))) as F.
  destruct (split_ws _) as [|m [|u [|v [|w l]]]]; try discriminate.
  intros [= <- <- <-].
  inversion F as [|? ? Hm F1]; subst. inversion F1 as [|? ? Hu F2]; subst.
  inversion F2 as [|? ? Hv F3]; subst. auto.
Qed.

Lemma request_tokens_clean_witness :
  token_ok "GET" /\ token_ok "/a%20b" /\ token_ok "HTTP/1.1".
Proof.
  apply (request_tokens_clean
           (blit ("GET  /a%20b" ++ String "009" "HTTP/1.1" ++ CRLF ++ "Host: x" ++ CRLF ++ CRLF))).
  reflexivity.
Defined.

(** ** Bytes and their latin-1 text *)

Lemma byte_eqb_ascii (a : ascii) (y : byte) :
  Byte.eqb (byte_of_ascii a) y = if ascii_dec a (ascii_of_byte y) then true else false.
Proof.
  destruct (ascii_dec a (ascii_of_byte y)) as [->|N].
  - rewrite byte_of_ascii_of_byte. now apply Byte.byte_dec_lb.
  - destruct (Byte.eqb (byte_of_ascii a) y) eqn:E; [|reflexivity].
    apply Byte.byte_dec_bl in E. subst y.
    now rewrite ascii_of_byte_of_ascii in N.
Qed.

Lemma bytes_prefix_decode (p : str) (data : bytes) :
  bytes_prefix (blit p) data = String.prefix p (decode_latin1 data).
Proof.
  unfold blit, decode_latin1, list_byte_of_string, string_of_list_byte.
  revert data. induction p as [|a p IH]; intros data; [now destruct data|].
  destruct data as [|y data]; [reflexivity|].
  cbn [list_ascii_of_string List.map bytes_prefix string_of_list_ascii String.prefix].
  rewrite byte_eqb_ascii, IH.
  now destruct (ascii_dec a (ascii_of_byte y)).
Qed.

Lemma bytes_contains_decode (p : str) (data : bytes) :
  bytes_contains (blit p) data = contains p (decode_latin1 data).
Proof.
  induction data as [|y data IH].
  - cbn [bytes_contains]. rewrite bytes_prefix_decode. reflexivity.
  - cbn [bytes_contains]. rewrite bytes_prefix_decode, IH. reflexivity.
Qed.

Lemma decode_latin1_app (x y : bytes) :
  decode_latin1 (x ++ y)%list = decode_latin1 x ++ decode_latin1 y.
Proof.
  unfold decode_latin1, string_of_list_byte.
  induction x as [|a x IH]; cbn; [reflexivity | now rewrite IH].
Qed.

(** ** Prefixes and occurrences *)

Lemma prefix_length (p s : str) :
  String.prefix p s = true -> String.length p <= String.length s.
Proof.
  revert s. induction p as [|a p IH]; intros s; [cbn [String.length]; lia|].
  destruct s as [|c s]; cbn [String.prefix String.length]; [discriminate|].
  destruct (ascii_dec a c); [|discriminate].
  intros H. apply IH in H. lia.
Qed.

Lemma prefix_app_true (p s t : str) :
  String.prefix p s = true -> String.prefix p (s ++ t) = true.
Proof.
  revert s. induction p as [|a p IH]; intros s; [now destruct (s ++ t)|].
  destruct s as [|c s]; cbn [String.prefix append]; [discriminate|].
  destruct (ascii_dec a c); [apply IH | discriminate].
Qed.

Lemma prefix_app_false (p s t : str) :
  String.prefix p s = false -> String.length p <= String.length s ->
  String.prefix p (s ++ t) = false.
Proof.
  revert s. induction p as [|a p IH]; intros s; [now destruct s|].
  destruct s as [|c s]; cbn [String.prefix append String.length]; [lia|].
  destruct (ascii_dec a c); [|reflexivity].
  intros H L. apply IH; [exact H | lia].
Qed.

Lemma prefix_shorter (p q s : str) :
  String.prefix (p ++ q) s = true -> String.prefix p s = true.
Proof.
  revert s. induction p as [|a p IH]; intros s; [now destruct s|].
  destruct s as [|c s]; cbn [String.prefix append]; [discriminate|].
  destruct (ascii_dec a c); [apply IH | discriminate].
Qed.

Lemma contains_length (p s : str) :
  contains p s = true -> String.length p <= String.length s.
Proof.
  induction s as [|c s IH]; cbn [contains]; intros H.
  - rewrite orb_false_r in H. now apply prefix_length.
  - apply orb_true_iff in H as [H|H].
    + now apply prefix_length.
    + apply IH in H. cbn. lia.
Qed.

Lemma contains_shorter (p q s : str) :
  contains (p ++ q) s = true -> contains p s = true.
Proof.
  induction s as [|c s IH]; cbn [contains]; intros H.
  - rewrite orb_false_r in *. now apply prefix_shorter with q.
  - apply orb_true_iff in H as [H|H]; apply orb_true_iff.
    + left. now apply prefix_shorter with q.
    + right. now apply IH.
Qed.

(** ** The first field of a split *)

Lemma hd_split_cons (sep : str) (a : ascii) (s : str) :
  List.hd "" (split (String a s) sep) =
  if String.prefix sep (String a s) then ""
  else String a (List.hd "" (split s sep)).
Proof.
  unfold split. cbn [split_from].
  destruct (String.prefix sep (String a s)); [reflexivity|].
  pose proof (split_from_not_nil sep s 0) as N.
  destruct (split_from sep 0 s); [now elim N | reflexivity].
Qed.

(** What follows the first separator does not change the first field. *)
Lemma hd_split_app (sep s t : str) :
  contains sep s = true ->
  List.hd "" (split (s ++ t) sep) = List.hd "" (split s sep).
Proof.
  induction s as [|a s IH]; intros H.
  - cbn in H. rewrite orb_false_r in H. destruct sep; [|discriminate].
    now destruct t.
  - cbn [append]. rewrite !hd_split_cons.
    destruct (String.prefix sep (String a s)) eqn:P.
    + change (String a (s ++ t)) with (String a s ++ t).
      now rewrite (prefix_app_true _ _ t P).
    + cbn [contains] in H. rewrite P in H. cbn [orb] in H.
      change (String a (s ++ t)) with (String a s ++ t).
      rewrite (prefix_app_false _ _ t P).
      * now rewrite (IH H).
      * apply contains_length in H. cbn. lia.
Qed.

Lemma first_line_app (data tail : bytes) :
  bytes_contains (blit (CRLF ++ CRLF)) data = true ->
  first_line (data ++ tail)%list = first_line data.
Proof.
  intros H. unfold first_line. rewrite decode_latin1_app.
  apply hd_split_app. rewrite bytes_contains_decode in H.
  now apply contains_shorter with CRLF.
Qed.

(** ** The read loop and the byte stream *)

Lemma recv_loop_stream (chunks : list bytes) :
  List.Forall nonempty chunks ->
  forall acc, exists data rest tail,
    recv_loop (List.map Return chunks) acc = (Return data, rest) /\
    (acc ++ List.concat chunks)%list = (data ++ tail)%list /\
    (tail = [] \/ bytes_contains (blit (CRLF ++ CRLF)) data = true).
Proof.
  induction 1 as [|chunk chunks Hc _ IH]; intros acc.
  - exists acc, [], []. cbn. now auto.
  - cbn [List.map recv_loop List.concat].
    destruct chunk as [|x chunk]; [now elim Hc|]. cbn [is_empty].
    destruct (bytes_contains (blit (CRLF ++ CRLF)) (acc ++ x :: chunk)%list) eqn:E.
    + exists (acc ++ x :: chunk)%list, (List.map Return chunks), (List.concat chunks).
      rewrite List.app_assoc. auto.
    + destruct (IH (acc ++ x :: chunk)%list) as (data & rest & tail & Hr & Hs & Ht).
      exists data, rest, tail. rewrite List.app_assoc. auto.
Qed.

(** X6. How the request is cut into chunks by the network does not
    matter: two fresh connections that deliver the same bytes, in
    whatever non-empty pieces, and are then closed by the peer, get the
    same answer. *)
Theorem chunking_irrelevant (unquote : str -> result str)
    (getcwd : str) (open_read : str -> result bytes) (date_header : str)
    (chunks1 chunks2 : list bytes) (doc_root : str) :
  List.Forall nonempty chunks1 ->
  List.Forall nonempty chunks2 ->
  List.concat chunks1 = List.concat chunks2 ->
  let outcome1 :=
    handle_request unquote getcwd open_read date_header
      (connection (List.map Return chunks1)) doc_root in
  let outcome2 :=
    handle_request unquote getcwd open_read date_header
      (connection (List.map Return chunks2)) doc_root in
  fst outcome1 = fst outcome2 /\
  sent (snd outcome1) = sent (snd outcome2) /\
  close_calls (snd outcome1) = close_calls (snd outcome2).
Proof.
  intros F1 F2 E outcome1 outcome2. subst outcome1 outcome2.
  destruct (recv_loop_stream chunks1 F1 []) as (d1 & r1 & t1 & H1 & S1 & T1).
  destruct (recv_loop_stream chunks2 F2 []) as (d2 & r2 & t2 & H2 & S2 & T2).
  rewrite List.app_nil_l in S1, S2.
  assert (L1 : first_line d1 = first_line (List.concat chunks1)).
  { rewrite S1. destruct T1 as [->|T1]; [now rewrite List.app_nil_r|].
    symmetry. now apply first_line_app. }
  assert (L2 : first_line d2 = first_line (List.concat chunks1)).
  { rewrite E, S2. destruct T2 as [->|T2]; [now rewrite List.app_nil_r|].
    symmetry. now apply first_line_app. }
  rewrite (handle_request_received _ _ _ _ (connection _) _ _ _ H1).
  rewrite (handle_request_received _ _ _ _ (connection _) _ _ _ H2).
  cbv zeta. rewrite L1, L2.
  destruct (split_ws (first_line (List.concat chunks1))) as [|m [|u [|v [|w l]]]];
    try now cbn.
  destruct (m =? "GET"); [|now cbn].
  destruct (build_response unquote getcwd open_read date_header u doc_root);
    now cbn.
Qed.

Lemma chunking_irrelevant_witness :
  let chunks1 := [blit ("GET /style.css HTTP/1.1" ++ CRLF ++ "Host: a" ++ CRLF ++ CRLF)] in
  let chunks2 := [blit "GET /sty"; blit ("le.css HTTP/1.1" ++ String CR "");
                  blit (String LF "Host: a" ++ CRLF ++ String CR "");
                  blit (String LF "")] in
  let outcome1 :=
    handle_request unquote_plain www_cwd www_open www_date
      (connection (List.map Return chunks1)) "/srv/www" in
  let outcome2 :=
    handle_request unquote_plain www_cwd www_open www_date
      (connection (List.map Return chunks2)) "/srv/www" in
  fst outcome1 = fst outcome2 /\
  sent (snd outcome1) = sent (snd outcome2) /\
  close_calls (snd outcome1) = close_calls (snd outcome2).
Proof.
  intros chunks1 chunks2.
  apply (chunking_irrelevant unquote_plain www_cwd www_open www_date
           chunks1 chunks2 "/srv/www").
  - repeat constructor; discriminate.
  - repeat constructor; discriminate.
  - reflexivity.
Defined.

(** * Further properties of path resolution *)

Lemma prefix_nil (s : str) : String.prefix "" s = true.
Proof. now destruct s. Qed.

Lemma prefix_app_cancel (r x y : str) :
  String.prefix (r ++ x) (r ++ y) = String.prefix x y.
Proof.
  induction r as [|a r IH]; [reflexivity|].
  cbn [append String.prefix]. now destruct (ascii_dec a a).
Qed.

Lemma prefix_self_app (r y : str) : String.prefix r (r ++ y) = true.
Proof.
  rewrite <- (append_nil_r r) at 1. rewrite prefix_app_cancel. apply prefix_nil.
Qed.

Lemma prefix_split (p s : str) :
  String.prefix p s = true -> exists rest, s = p ++ rest.
Proof.
  revert s. induction p as [|a p IH]; intros s; [now exists s|].
  destruct s as [|c s]; cbn [String.prefix]; [discriminate|].
  destruct (ascii_dec a c) as [->|]; [|discriminate].
  intros H. destruct (IH _ H) as (rest & ->). now exists rest.
Qed.

Lemma lstrip_not_slash (s : str) : startswith (lstrip s "/") "/" = false.
Proof.
  unfold startswith. induction s as [|a s IH]; [reflexivity|].
  cbn [lstrip]. destruct (Ascii.eqb_spec a "/") as [->|N]; [exact IH|].
  cbn [String.prefix]. destruct (ascii_dec "/" a) as [E|_]; [now elim N | reflexivity].
Qed.

(** X7. The request path never replaces the document root: whatever the
    decoded path, with any number of leading slashes, the path that is
    checked and opened is the document root followed by more text. *)
Theorem full_path_extends_doc_root (decoded doc_root : str) :
  startswith (resolved_full_path decoded doc_root) doc_root = true /\
  exists rest, resolved_full_path decoded doc_root = doc_root ++ rest.
Proof.
  assert (E : exists rest, resolved_full_path decoded doc_root = doc_root ++ rest).
  { unfold resolved_full_path, posixpath.join. rewrite lstrip_not_slash.
    destruct ((doc_root =? "") || endswith doc_root "/"); eauto. }
  split; [|exact E].
  destruct E as (rest & ->). apply prefix_self_app.
Qed.

Example leading_slashes_stay_below_root :
  resolved_full_path "//etc/passwd" "/srv/www" = "/srv/www/etc/passwd".
Proof. reflexivity. Qed.

Lemma status_200_not_404 (d d' t c t' c' : str) (body body' : bytes) :
  format_http_response d 200 t c body <> format_http_response d' 404 t' c' body'.
Proof.
  intros H. apply (f_equal (List.firstn 12)) in H.
  unfold format_http_response in H. cbn in H. discriminate H.
Qed.

Lemma Return_inj (A : Type) (x y : A) : Return x = Return y -> x = y.
Proof. now intros [= ->]. Qed.

(** X8. A response with status 200 is returned only when the decoding
    succeeded, the path passed the prefix check and the file was read; it
    then carries the type of that path and the bytes read. *)
Theorem ok_only_when_file_read (unquote : str -> result str) (getcwd : str)
    (open_read : str -> result bytes) (date_header uri_path doc_root : str)
    (status_text content_type : str) (body : bytes) :
  build_response unquote getcwd open_read date_header uri_path doc_root =
    Return (format_http_response date_header 200 status_text content_type body) ->
  exists decoded content,
    unquote uri_path = Return decoded /\
    passes_prefix_check getcwd (resolved_full_path decoded doc_root) doc_root = true /\
    open_read (resolved_full_path decoded doc_root) = Return content /\
    format_http_response date_header 200 status_text content_type body =
    format_http_response date_header 200 "OK"
      (get_mime_type (resolved_full_path decoded doc_root)) content.
Proof.
  rewrite build_response_unfold.
  destruct (unquote uri_path) as [decoded|e].
  - unfold serve_path.
    destruct (passes_prefix_check getcwd (resolved_full_path decoded doc_root) doc_root)
      eqn:Hc; cbn [negb].
    + destruct (open_read (resolved_full_path decoded doc_root)) as [content|e] eqn:Ho.
      * intros H. apply Return_inj in H. exists decoded, content. now rewrite H.
      * destruct (is_FileNotFoundError e); [|discriminate].
        intros H. apply Return_inj in H. symmetry in H.
        now apply status_200_not_404 in H.
    + intros H. apply Return_inj in H. symmetry in H.
      now apply status_200_not_404 in H.
  - intros H. apply Return_inj in H. now apply status_400_not_200 in H.
Qed.

Lemma ok_only_when_file_read_witness :
  exists decoded content,
    unquote_plain "/style.css" = Return decoded /\
    passes_prefix_check www_cwd (resolved_full_path decoded "/srv/www") "/srv/www" = true /\
    www_open (resolved_full_path decoded "/srv/www") = Return content /\
    format_http_response www_date 200 "OK" "text/css" (blit "p{}") =
    format_http_response www_date 200 "OK"
      (get_mime_type (resolved_full_path decoded "/srv/www")) content.
Proof.
  apply (ok_only_when_file_read unquote_plain www_cwd www_open www_date
           "/style.css" "/srv/www" "OK" "text/css" (blit "p{}")).
  reflexivity.
Defined.

(** X9. What the prefix check lets through without being the root or
    below it: exactly the paths whose normalized name continues the name
    of the root with a character other than the separator. *)
Theorem prefix_check_escapes (getcwd full_path doc_root : str) :
  passes_prefix_check getcwd full_path doc_root = true ->
  endswith (posixpath.abspath getcwd doc_root) "/" = false ->
  in_subtree (posixpath.abspath getcwd doc_root)
             (posixpath.abspath getcwd full_path) = false <->
  exists c rest,
    posixpath.abspath getcwd full_path =
      posixpath.abspath getcwd doc_root ++ String c rest /\
    c <> "/"%char.
Proof.
  unfold passes_prefix_check, in_subtree, startswith.
  set (root := posixpath.abspath getcwd doc_root).
  set (path := posixpath.abspath getcwd full_path).
  intros Hp He. rewrite He. destruct (prefix_split _ _ Hp) as (x & ->).
  split.
  - intros H. apply orb_false_iff in H as [Hne Hsub].
    destruct x as [|c rest].
    + rewrite append_nil_r, String.eqb_refl in Hne. discriminate.
    + exists c, rest. split; [reflexivity|]. intros ->.
      rewrite prefix_app_cancel in Hsub. cbn [String.prefix] in Hsub.
      destruct (ascii_dec "/" "/") as [_|N]; [|now elim N].
      rewrite prefix_nil in Hsub. discriminate.
  - intros (c & rest & E & Hc).
    assert (x = String c rest) as ->.
    { revert E. clear. induction root as [|a root IH]; cbn; [auto|].
      intros [= E]. auto. }
    apply orb_false_iff. split.
    + apply String.eqb_neq. intros E'.
      apply (f_equal String.length) in E'.
      revert E'. clear. induction root as [|a root IH]; cbn; [discriminate|].
      intros [= E]. auto.
    + rewrite prefix_app_cancel. cbn [String.prefix].
      destruct (ascii_dec "/" c) as [<-|_]; [now elim Hc | reflexivity].
Qed.

Lemma prefix_check_escapes_witness :
  in_subtree (posixpath.abspath www_cwd "/srv/www")
             (posixpath.abspath www_cwd "/srv/www/../www-secret/key.txt") = false <->
  exists c rest,
    posixpath.abspath www_cwd "/srv/www/../www-secret/key.txt" =
      posixpath.abspath www_cwd "/srv/www" ++ String c rest /\
    c <> "/"%char.
Proof.
  apply (prefix_check_escapes www_cwd "/srv/www/../www-secret/key.txt" "/srv/www").
  - reflexivity.
  - reflexivity.
Defined.

(** * Further properties of the MIME resolver *)

Lemma contains_char_app (c : ascii) (s t : str) :
  contains (String c "") (s ++ String c t) = true.
Proof.
  induction s as [|a s IH]; cbn [append]; rewrite contains_char.
  - now rewrite Ascii.eqb_refl.
  - now rewrite IH, orb_true_r.
Qed.

Lemma after_last_app (c : ascii) (s t : str) :
  contains (String c "") t = false ->
  after_last c (s ++ String c t) = t.
Proof.
  intros H. induction s as [|a s IH]; cbn [append after_last].
  - now rewrite H, Ascii.eqb_refl.
  - now rewrite contains_char_app.
Qed.

(** X10. For a path of the form [stem.ext] in which [ext] has no further
    dot, the content type is the table entry of [ext] in lower case, or
    the default when the table has none; what [stem] is, dots and
    directories included, does not matter. *)
Theorem mime_of_extension (stem ext : str) :
  contains "." ext = false ->
  get_mime_type (stem ++ "." ++ ext) =
  dict_get MIME_TYPES (lower ext) DEFAULT_MIME_TYPE.
Proof.
  intros H. rewrite get_mime_type_unfold, MIME_TYPES_spec.
  change ("." ++ ext) with (String "." ext).
  now rewrite contains_char_app, (after_last_app "." stem ext H).
Qed.

Lemma mime_of_extension_witness :
  get_mime_type ("/srv/www/v1.2/archive.tar" ++ "." ++ "JPEG") =
  dict_get MIME_TYPES (lower "JPEG") DEFAULT_MIME_TYPE.
Proof.
  apply (mime_of_extension "/srv/www/v1.2/archive.tar" "JPEG").
  reflexivity.
Defined.

Lemma dict_get_range (d : list (str * str)) (key default : str) :
  List.In (dict_get d key default) (default :: List.map snd d).
Proof.
  induction d as [|[k v] d IH]; cbn [dict_get List.map snd]; [now left|].
  destruct (k =? key); [right; now left|].
  destruct IH as [IH|IH]; [now left | right; now right].
Qed.

(** X11. Whatever the path, the content type is the default or one of
    the values of the table: nothing taken from the request reaches the
    Content-Type header. *)
Theorem mime_type_from_table (file_path : str) :
  List.In (get_mime_type file_path)
          (DEFAULT_MIME_TYPE :: List.map snd MIME_TYPES).
Proof.
  unfold get_mime_type. destruct (contains "." file_path); [|now left].
  apply dict_get_range.
Qed.

(** * Further properties of the framer *)

Lemma all_chars_app (p : ascii -> bool) (s t : str) :
  all_chars p (s ++ t) = all_chars p s && all_chars p t.
Proof.
  induction s as [|a s IH]; cbn [append all_chars]; [reflexivity|].
  now rewrite IH, andb_assoc.
Qed.

Lemma uint_not_CR (d : Decimal.uint) :
  all_chars not_CR (NilEmpty.string_of_uint d) = true.
Proof. induction d; cbn [NilEmpty.string_of_uint all_chars]; auto. Qed.

Lemma str_of_len_not_CR (n : nat) : all_chars not_CR (str_of_len n) = true.
Proof.
  unfold str_of_len, NilZero.string_of_uint.
  destruct (Nat.to_uint n) eqn:E; try (rewrite <- E; apply uint_not_CR).
  reflexivity.
Qed.

Lemma str_of_int_not_CR (n : Z) : all_chars not_CR (str_of_int n) = true.
Proof.
  unfold str_of_int, NilZero.string_of_int, NilZero.string_of_uint.
  destruct (Z.to_int n) as [d|d]; destruct d eqn:E;
    try reflexivity; rewrite <- E; cbn [all_chars]; apply uint_not_CR.
Qed.

(** A line without CR ends at the first CRLF that follows it. *)
Lemma split_line (line rest : str) :
  all_chars not_CR line = true ->
  split (line ++ CRLF ++ rest) CRLF = line :: split rest CRLF.
Proof.
  unfold split. induction line as [|a line IH]; intros H.
  - cbn [append CRLF split_from String.length Nat.sub].
    unfold CRLF, CR, LF. cbn [String.prefix].
    destruct (ascii_dec "013" "013") as [_|N]; [|now elim N].
    destruct (ascii_dec "010" "010") as [_|N]; [|now elim N].
    rewrite prefix_nil. reflexivity.
  - cbn [all_chars] in H. apply andb_true_iff in H as [Ha Hl].
    cbn [append split_from]. unfold CRLF at 1. cbn [String.prefix].
    destruct (ascii_dec CR a) as [<-|_]; [discriminate Ha|].
    now rewrite (IH Hl).
Qed.

(** X12. When the date, the status text and the content type contain no
    CR, the response splits at CRLF into exactly the status line, the
    five headers and one empty line, followed by the lines of the body:
    no further header line can appear. *)
Theorem response_header_lines (date : str) (status_code : Z)
    (status_text content_type : str) (content_body : bytes) :
  all_chars not_CR date = true ->
  all_chars not_CR status_text = true ->
  all_chars not_CR content_type = true ->
  split (decode_latin1
           (format_http_response date status_code status_text content_type
              content_body)) CRLF =
  ("HTTP/1.1 " ++ str_of_int status_code ++ " " ++ status_text) ::
  ("Date: " ++ date) ::
  ("Server: " ++ SERVER_NAME) ::
  ("Content-Type: " ++ content_type) ::
  ("Content-Length: " ++ str_of_len (List.length content_body)) ::
  "Connection: close" ::
  "" :: split (decode_latin1 content_body) CRLF.
Proof.
  intros Hd Ht Hc.
  rewrite format_http_response_header, decode_latin1_app, decode_encode_latin1.
  unfold spec_header. rewrite !append_assoc.
  rewrite <- !(append_assoc "HTTP/1.1 ").
  rewrite <- !(append_assoc ("HTTP/1.1 " ++ str_of_int status_code)).
  rewrite <- !(append_assoc (("HTTP/1.1 " ++ str_of_int status_code) ++ " ")).
  rewrite split_line.
  2:{ rewrite !all_chars_app, str_of_int_not_CR, Ht. reflexivity. }
  rewrite <- !(append_assoc "Date: ").
  rewrite split_line by (rewrite all_chars_app, Hd; reflexivity).
  rewrite <- !(append_assoc "Server: ").
  rewrite split_line by reflexivity.
  rewrite <- !(append_assoc "Content-Type: ").
  rewrite split_line by (rewrite all_chars_app, Hc; reflexivity).
  rewrite <- !(append_assoc "Content-Length: ").
  rewrite split_line by (rewrite all_chars_app, str_of_len_not_CR; reflexivity).
  rewrite split_line by reflexivity.
  change (CRLF ++ decode_latin1 content_body)
    with ("" ++ CRLF ++ decode_latin1 content_body).
  rewrite split_line by reflexivity.
  rewrite !append_assoc. reflexivity.
Qed.

Lemma response_header_lines_witness :
  split (decode_latin1
           (format_http_response www_date 404 "Not Found" "text/html"
              (blit "<h1>404 Not Found</h1>"))) CRLF =
  ("HTTP/1.1 " ++ str_of_int 404 ++ " " ++ "Not Found") ::
  ("Date: " ++ www_date) ::
  ("Server: " ++ SERVER_NAME) ::
  ("Content-Type: " ++ "text/html") ::
  ("Content-Length: " ++ str_of_len (List.length (blit "<h1>404 Not Found</h1>"))) ::
  "Connection: close" ::
  "" :: split (decode_latin1 (blit "<h1>404 Not Found</h1>")) CRLF.
Proof.
  apply (response_header_lines www_date 404 "Not Found" "text/html"
           (blit "<h1>404 Not Found</h1>")).
  - reflexivity.
  - reflexivity.
  - reflexivity.
Defined.

(** * Server initialization and the accept loop *)

Lemma accept_loop_spec (doc_root : str) (events : list loop_event) :
  forall threads,
    accept_loop doc_root events threads =
    mkRun (if interrupted events then Returned else Waiting)
          (threads ++ List.map (fun client_socket => (client_socket, doc_root))
                        (accepted_clients (before_interrupt events)))%list
          (if interrupted events then 1 else 0).
Proof.
  induction events as [|[client_socket| |e] events IH]; intros threads.
  - cbn. now rewrite List.app_nil_r.
  - cbn [accept_loop]. rewrite IH. cbn. now rewrite <- List.app_assoc.
  - cbn. now rewrite List.app_nil_r.
  - cbn [accept_loop]. rewrite IH. reflexivity.
Qed.



(** X14. A handler thread is started only when the command line has
    exactly two arguments, the first converts to a port, the second names
    a directory, and creating, binding and listening on the socket all
    succeeded; every thread started is given the second argument as its
    document root. *)
Theorem main_starts_handlers_only_when_set_up (int : str -> result Z) (h : host)
    (argv : list str) :
  started (main int h argv) <> [] ->
  List.length argv = 3 /\
  (exists port,
     int (List.nth 1 argv "") = Return port /\
     bind_listen h port = Return tt) /\
  isdir h (List.nth 2 argv "") = true /\
  socket_setup h = Return tt /\
  List.Forall (fun thread => snd thread = List.nth 2 argv "")
    (started (main int h argv)).
Proof.
  unfold main.
  destruct (Nat.eqb_spec (List.length argv) 3) as [Hl|_];
    cbn [negb started]; [|intros H; now elim H].
  destruct (int (List.nth 1 argv "")) as [port|e].
  - unfold start_server.
    destruct (isdir h (List.nth 2 argv "")); cbn [negb started];
      [|intros H; now elim H].
    destruct (socket_setup h) as [[]|e]; [|cbn; intros H; now elim H].
    destruct (bind_listen h port) as [[]|e] eqn:Hb.
    + intros _. repeat split; eauto.
      rewrite accept_loop_spec. cbn [started List.app].
      apply List.Forall_forall. intros thread Hin.
      apply List.in_map_iff in Hin as (c & <- & _). reflexivity.
    + destruct (is_OSError e); cbn; intros H; now elim H.
  - destruct (is_ValueError e); cbn; intros H; now elim H.
Qed.

Lemma main_starts_handlers_only_when_set_up_witness :
  let h := mkHost (String.eqb "/srv/www") (Return tt) (fun _ => Return tt)
             [Accepted (connection [])] in
  let argv := ["http_server.py"; "8080"; "/srv/www"] in
  let int := fun s : str => if s =? "8080" then Return 8080%Z else Raise ValueError in
  List.length argv = 3 /\
  (exists port,
     int (List.nth 1 argv "") = Return port /\
     bind_listen h port = Return tt) /\
  isdir h (List.nth 2 argv "") = true /\
  socket_setup h = Return tt /\
  List.Forall (fun thread => snd thread = List.nth 2 argv "")
    (started (main int h argv)).
Proof.
  intros h argv int.
  apply (main_starts_handlers_only_when_set_up int h argv).
  vm_compute. discriminate.
Defined.

(** * Requests without [..] pass the prefix check *)

(** ** Splitting a concatenation *)

Lemma cons_field_app (a : ascii) (l m : list str) :
  l <> [] -> cons_field a (l ++ m)%list = (cons_field a l ++ m)%list.
Proof. destruct l; [now intros H; elim H | reflexivity]. Qed.

Lemma split_app_sep (c : ascii) (s t : str) :
  split (s ++ String c t) (String c "") =
  (split s (String c "") ++ split t (String c ""))%list.
Proof.
  induction s as [|a s IH]; cbn [append].
  - rewrite split_char_cons, Ascii.eqb_refl. reflexivity.
  - rewrite !split_char_cons, IH. destruct (a =? c)%char; [reflexivity|].
    apply cons_field_app, split_not_nil.
Qed.

(** ** The loop of [normpath] on components other than [..] *)

Lemma normpath_loop_no_dotdot (k : nat) (comps : list str) :
  List.forallb (fun comp => negb (comp =? "..")) comps = true ->
  forall new_comps,
    List.fold_left (posixpath.normpath_step k) comps new_comps =
    (new_comps ++ kept comps)%list.
Proof.
  induction comps as [|comp comps IH]; intros H new_comps.
  - cbn. now rewrite List.app_nil_r.
  - cbn [List.forallb] in H. apply andb_true_iff in H as [Hc H].
    cbn [List.fold_left kept List.filter]. fold (kept comps).
    unfold posixpath.normpath_step at 2.
    destruct ((comp =? "") || (comp =? ".")); cbn [negb].
    + now apply IH.
    + rewrite Hc. cbn [orb]. rewrite (IH H). now rewrite <- List.app_assoc.
Qed.

Lemma concat_prefix (l m : list str) :
  String.prefix (String.concat "/" l) (String.concat "/" (l ++ m)) = true.
Proof.
  induction l as [|x l IH]; [apply prefix_nil|].
  destruct l as [|y l].
  - destruct m as [|z m]; cbn [List.app String.concat].
    + rewrite <- (append_nil_r x) at 2. apply prefix_self_app.
    + apply prefix_self_app.
  - change (String.concat "/" (x :: y :: l))
      with (x ++ "/" ++ String.concat "/" (y :: l)).
    change (String.concat "/" ((x :: y :: l) ++ m))
      with (x ++ "/" ++ String.concat "/" ((y :: l) ++ m)).
    now rewrite !prefix_app_cancel.
Qed.

(** ** [normpath] on an absolute path *)

Lemma normpath_absolute (path : str) :
  startswith path "/" = true ->
  posixpath.normpath path =
  posixpath.seps (if two_slashes path then 2 else 1) ++
  String.concat "/"
    (List.fold_left
       (posixpath.normpath_step (if two_slashes path then 2 else 1))
       (split path "/") []).
Proof.
  intros H. unfold posixpath.normpath. rewrite H. fold (two_slashes path).
  destruct path as [|a path]; [discriminate H|].
  cbn [String.eqb]. destruct (two_slashes (String a path)); reflexivity.
Qed.

Lemma two_slashes_app_relative (r x : str) :
  startswith r "/" = true -> startswith x "/" = false ->
  two_slashes (r ++ x) = two_slashes r.
Proof.
  unfold two_slashes, startswith. intros Hr Hx.
  destruct r as [|a [|b [|c r]]]; cbn [append String.prefix] in *;
    try discriminate Hr;
    repeat match goal with
           | |- context [ascii_dec ?u ?v] => destruct (ascii_dec u v)
           end;
    rewrite ?prefix_nil; try reflexivity.
  - destruct x as [|d x]; [reflexivity|]. cbn [String.prefix] in *.
    destruct (ascii_dec "/" d); [|reflexivity].
    rewrite prefix_nil in Hx. discriminate Hx.
  - destruct x as [|d x]; [reflexivity|]. cbn [String.prefix] in *.
    destruct (ascii_dec "/" d); [|reflexivity].
    rewrite prefix_nil in Hx. discriminate Hx.
Qed.

Lemma endswith_slash_last (a b : ascii) (r : str) :
  endswith (String a (String b r)) "/" = endswith (String b r) "/".
Proof.
  cbn [endswith String.eqb]. now destruct (a =? "/")%char.
Qed.

Lemma two_slashes_app_open (r x : str) :
  startswith r "/" = true -> endswith r "/" = false ->
  two_slashes (r ++ x) = two_slashes r.
Proof.
  unfold two_slashes, startswith. intros Hr He.
  destruct r as [|a [|b [|c r]]]; cbn [append String.prefix] in *;
    try discriminate Hr.
  - destruct (ascii_dec "/" a) as [<-|]; [|discriminate Hr].
    cbn in He. discriminate He.
  - rewrite endswith_slash_last in He.
    destruct (ascii_dec "/" a) as [<-|]; [|discriminate Hr].
    destruct (ascii_dec "/" b) as [<-|]; [|reflexivity].
    cbn in He. discriminate He.
  - repeat match goal with
           | |- context [ascii_dec ?u ?v] => destruct (ascii_dec u v)
           end;
    rewrite ?prefix_nil; reflexivity.
Qed.

Lemma endswith_split (s : str) :
  endswith s "/" = true -> exists base, s = base ++ "/".
Proof.
  induction s as [|a s IH]; cbn [endswith]; intros H.
  - discriminate H.
  - apply orb_true_iff in H as [H|H].
    + apply String.eqb_eq in H. now exists "".
    + destruct (IH H) as (base & ->). now exists (String a base).
Qed.

Lemma endswith_app (s t : str) :
  t <> "" -> endswith (s ++ t) "/" = endswith t "/".
Proof.
  intros Ht. induction s as [|a s IH]; [reflexivity|].
  cbn [append endswith]. rewrite IH.
  destruct (s ++ t) as [|c u] eqn:E.
  - destruct s; [now elim Ht | discriminate E].
  - cbn [String.eqb]. now destruct (a =? "/")%char.
Qed.

Lemma startswith_app (s t p : str) :
  startswith s p = true -> startswith (s ++ t) p = true.
Proof. apply prefix_app_true. Qed.

(** [join] when the second part is relative. *)
Lemma join_relative (a rel : str) :
  startswith rel "/" = false ->
  posixpath.join a rel =
  if (a =? "") || endswith a "/" then a ++ rel else a ++ "/" ++ rel.
Proof. intros H. unfold posixpath.join. now rewrite H. Qed.

(** The heart of the matter: below an absolute directory name, a relative
    path without [..] normalizes to a name that starts with the
    normalized directory name. *)
Lemma normpath_join_prefix (r rel : str) :
  startswith r "/" = true ->
  startswith rel "/" = false ->
  no_dotdot rel = true ->
  startswith (posixpath.normpath (posixpath.join r rel)) (posixpath.normpath r) = true.
Proof.
  intros Hr Hrel Hdd. rewrite (join_relative _ _ Hrel).
  assert (Hne : (r =? "") = false) by (destruct r; [discriminate Hr | reflexivity]).
  rewrite Hne. cbn [orb].
  destruct (endswith r "/") eqn:He.
  - destruct (endswith_split _ He) as (base & ->).
    rewrite (normpath_absolute _ Hr).
    rewrite (normpath_absolute _ (startswith_app _ rel _ Hr)).
    rewrite (two_slashes_app_relative _ _ Hr Hrel).
    set (k := if two_slashes (base ++ "/") then 2 else 1).
    rewrite append_assoc.
    change ("/" ++ rel) with (String "/" rel).
    change (base ++ "/") with (base ++ String "/" "").
    rewrite !(split_app_sep "/").
    rewrite !List.fold_left_app.
    change (split "" "/") with [""].
    cbn [List.fold_left]. unfold posixpath.normpath_step at 2.
    cbn [String.eqb orb].
    rewrite (normpath_loop_no_dotdot k _ Hdd).
    unfold startswith. rewrite prefix_app_cancel. apply concat_prefix.
  - rewrite (normpath_absolute _ Hr).
    assert (Hf : startswith (r ++ "/" ++ rel) "/" = true)
      by now apply startswith_app.
    rewrite (normpath_absolute _ Hf).
    rewrite (two_slashes_app_open _ _ Hr He).
    set (k := if two_slashes r then 2 else 1).
    change ("/" ++ rel) with (String "/" rel).
    rewrite (split_app_sep "/").
    rewrite List.fold_left_app.
    rewrite (normpath_loop_no_dotdot k _ Hdd).
    unfold startswith. rewrite prefix_app_cancel. apply concat_prefix.
Qed.

Lemma startswith_slash_app (root x : str) :
  root <> "" -> startswith (root ++ x) "/" = startswith root "/".
Proof.
  intros H. destruct root as [|a root]; [now elim H|].
  unfold startswith. cbn [append String.prefix].
  destruct (ascii_dec "/" a); [now rewrite !prefix_nil | reflexivity].
Qed.

Lemma append_not_nil (s t : str) : t <> "" -> (s ++ t =? "") = false.
Proof.
  intros H. destruct s; [|reflexivity]. cbn [append].
  destruct t; [now elim H | reflexivity].
Qed.

(** Joining the working directory first or last gives the same path. *)
Lemma join_join_relative (cwd root rel : str) :
  root <> "" ->
  startswith root "/" = false ->
  startswith rel "/" = false ->
  posixpath.join cwd (posixpath.join root rel) =
  posixpath.join (posixpath.join cwd root) rel.
Proof.
  intros Hne Hroot Hrel.
  assert (Hn : (root =? "") = false) by now apply String.eqb_neq.
  assert (Hj : startswith (posixpath.join root rel) "/" = false).
  { rewrite (join_relative _ _ Hrel), Hn. cbn [orb].
    destruct (endswith root "/"); now rewrite startswith_slash_app. }
  rewrite (join_relative cwd _ Hj), (join_relative cwd _ Hroot).
  rewrite (join_relative root _ Hrel), Hn. cbn [orb].
  destruct ((cwd =? "") || endswith cwd "/").
  - rewrite (join_relative _ _ Hrel), (append_not_nil cwd root Hne).
    rewrite (endswith_app cwd root Hne). cbn [orb].
    destruct (endswith root "/"); now rewrite !append_assoc.
  - rewrite (join_relative _ _ Hrel).
    rewrite <- (append_assoc cwd "/" root).
    rewrite (append_not_nil (cwd ++ "/") root Hne).
    rewrite (endswith_app (cwd ++ "/") root Hne). cbn [orb].
    destruct (endswith root "/"); now rewrite !append_assoc.
Qed.

Lemma no_dotdot_lstrip (s : str) :
  no_dotdot s = true -> no_dotdot (lstrip s "/") = true.
Proof.
  unfold no_dotdot. induction s as [|a s IH]; [auto|].
  cbn [lstrip]. destruct (Ascii.eqb_spec a "/") as [->|_]; [|auto].
  rewrite split_char_cons, Ascii.eqb_refl. cbn [List.forallb].
  intros H. apply andb_true_iff in H as [_ H]. now apply IH.
Qed.

Lemma no_dotdot_index (s : str) :
  endswith s "/" = true ->
  no_dotdot s = true -> no_dotdot (s ++ "index.html") = true.
Proof.
  intros He. destruct (endswith_split _ He) as (base & ->).
  unfold no_dotdot. rewrite append_assoc.
  change ("/" ++ "index.html") with (String "/" "index.html").
  change (base ++ "/") with (base ++ String "/" "").
  rewrite !(split_app_sep "/"), !List.forallb_app.
  intros H. apply andb_true_iff in H as [H _]. now rewrite H.
Qed.

Lemma no_dotdot_relative (decoded : str) :
  no_dotdot decoded = true -> no_dotdot (relative_path_of decoded) = true.
Proof.
  intros H. unfold relative_path_of. apply no_dotdot_lstrip.
  destruct (endswith decoded "/") eqn:He; [now apply no_dotdot_index | exact H].
Qed.

(** X15. A request whose decoded path has no [..] component is never
    turned away by the prefix check, whatever else it contains, as long
    as the working directory is absolute and the document root is not
    the empty string. *)
Theorem dotdot_free_request_passes (getcwd decoded doc_root : str) :
  startswith getcwd "/" = true ->
  doc_root <> "" ->
  no_dotdot decoded = true ->
  passes_prefix_check getcwd (resolved_full_path decoded doc_root) doc_root = true.
Proof.
  intros Hcwd Hne Hdd. apply no_dotdot_relative in Hdd.
  change (resolved_full_path decoded doc_root)
    with (posixpath.join doc_root (relative_path_of decoded)).
  pose proof (lstrip_not_slash
                (if endswith decoded "/" then decoded ++ "index.html" else decoded))
    as Hrel.
  fold (relative_path_of decoded) in Hrel.
  set (rel := relative_path_of decoded) in *.
  assert (Hn : (doc_root =? "") = false) by now apply String.eqb_neq.
  assert (Hfull : startswith (posixpath.join doc_root rel) "/" =
                  startswith doc_root "/").
  { rewrite (join_relative _ _ Hrel), Hn. cbn [orb].
    destruct (endswith doc_root "/"); now rewrite startswith_slash_app. }
  unfold passes_prefix_check, posixpath.abspath. rewrite Hfull.
  destruct (startswith doc_root "/") eqn:Hroot.
  - now apply normpath_join_prefix.
  - rewrite (join_join_relative _ _ _ Hne Hroot Hrel).
    apply normpath_join_prefix; [|exact Hrel | exact Hdd].
    rewrite (join_relative _ _ Hroot).
    destruct ((getcwd =? "") || endswith getcwd "/"); now apply startswith_app.
Qed.

Lemma dotdot_free_request_passes_witness :
  passes_prefix_check "/home/bob"
    (resolved_full_path "//a/./b...c/" "site/www/") "site/www/" = true.
Proof.
  apply (dotdot_free_request_passes "/home/bob" "//a/./b...c/" "site/www/").
  - reflexivity.
  - discriminate.
  - reflexivity.
Defined.

(** * One response per connection *)

(** X16. On a fresh connection on which sending succeeds, the handler
    writes nothing at all, or exactly the bytes of one response returned
    by [build_response] for the document root, and in that case returns
    after closing the connection once. *)
Theorem at_most_one_response (unquote : str -> result str)
    (getcwd : str) (open_read : str -> result bytes) (date_header : str)
    (script : list (result bytes)) (doc_root : str) :
  let outcome :=
    handle_request unquote getcwd open_read date_header (connection script)
      doc_root in
  sent (snd outcome) = [] \/
  (exists uri_path,
     build_response unquote getcwd open_read date_header uri_path doc_root =
       Return (sent (snd outcome))) /\
  fst outcome = Return tt /\
  close_calls (snd outcome) = 1.
Proof.
  intros outcome. subst outcome.
  destruct (recv_loop (recv_script (connection script)) []) as [[data|e] rest] eqn:Hr.
  - rewrite (handle_request_received _ _ _ _ _ _ _ _ Hr). cbv zeta.
    destruct (split_ws (first_line data)) as [|m [|u [|v [|w l]]]];
      try (left; reflexivity).
    destruct (m =? "GET"); [|left; reflexivity].
    destruct (build_response unquote getcwd open_read date_header u doc_root)
      as [response|e] eqn:Hb; [|left; reflexivity].
    right. cbn. repeat split. now exists u.
  - unfold handle_request. rewrite Hr.
    destruct (is_OSError e); left; reflexivity.
Qed.
